(** * Parallel agent orchestrator: a shallow embedding of
      [scripts/parallel_orchestrator.py] and the properties of its
      task life cycle, task derivation, state snapshots and synthesis
      report. *)

From Stdlib Require Import ZArith String Ascii.
From stdpp Require Import base list gmap.

Local Open Scope Z_scope.
Local Open Scope nat_scope.

(** ** Python values *)

(** A Python [str] is a sequence of Unicode code points; slicing
    [s[:n]] keeps the first [n] of them. *)
Definition char := N.
Definition str := list char.

(** The ASCII literals of the source, as [str]. *)
Definition py (s : string) : str := N_of_ascii <$> list_ascii_of_string s.

(** [needle in haystack] on [str]. *)
Fixpoint starts_with (needle haystack : str) : bool :=
  match needle, haystack with
  | [], _ => true
  | _ :: _, [] => false
  | a :: needle', b :: haystack' =>
      if decide (a = b) then starts_with needle' haystack' else false
  end.

Fixpoint contains (needle haystack : str) : bool :=
  starts_with needle haystack ||
  match haystack with
  | [] => false
  | _ :: haystack' => contains needle haystack'
  end.

Definition nl : str := [10%N].

(** An exception object: [type(e).__name__] and [str(e)].  Only
    subclasses of [Exception] are raised by the modelled calls. *)
Record exn := Exception { exn_type : str; exn_str : str }.

#[local] Set Warnings "-register-all".

(** JSON values, as built by [save_state] and written by [json.dumps].
    A Python dict keeps its insertion order. *)
Inductive json :=
| JNull
| JStr (s : str)
| JList (l : list json)
| JObj (items : list (str * json)).

(** Whether UTF-8 can encode a [str]: none of its code points is a
    surrogate (U+D800 to U+DFFF).  A [str] taken from the command
    line can hold one (a byte of [sys.argv] that is not UTF-8), and
    [write_text(..., encoding="utf-8")] raises [UnicodeEncodeError] on
    a text that holds one. *)
Definition surrogate (c : char) : bool := ((55296 <=? c) && (c <=? 57343))%N.
Definition encodable (s : str) : bool := forallb (fun c => negb (surrogate c)) s.

(** [json.dumps(..., ensure_ascii=False)] copies the characters of
    every string into its text, which can be encoded when each of them
    can. *)
Fixpoint json_encodable (j : json) : bool :=
  match j with
  | JNull => true
  | JStr s => encodable s
  | JList l => forallb json_encodable l
  | JObj items =>
      forallb (fun item => encodable item.1 && json_encodable item.2) items
  end.

(** A value that is [None] or a [str]. *)
Definition json_of_option (o : option str) : json :=
  match o with
  | None => JNull
  | Some s => JStr s
  end.

(** ** AgentTask *)

Inductive Status := pending | running | completed | failed.

#[global] Instance Status_eq_dec : EqDecision Status.
Proof. solve_decision. Defined.

Definition status_str (s : Status) : str :=
  match s with
  | pending => py "pending"
  | running => py "running"
  | completed => py "completed"
  | failed => py "failed"
  end.

Definition terminal (s : Status) : bool :=
  match s with
  | completed | failed => true
  | pending | running => false
  end.

(** The attributes of an [AgentTask] object.  [__init__] does not
    create [error]: the attribute exists only once a failure assigned
    it. *)
Record AgentTask := mkAgentTask {
  agent_id : str;
  prompt : str;
  name : str;
  status : Status;
  result : str;
  started_at : option str;
  ended_at : option str;
  error : option str
}.

Definition AgentTask_init (agent_id prompt name : str) : AgentTask :=
  {| agent_id := agent_id;
     prompt := prompt;
     name := match name with
             | [] => py "Agent-" ++ take 4 agent_id
             | _ => name
             end;
     status := pending;
     result := [];
     started_at := None;
     ended_at := None;
     error := None |}.

(** *** Attribute assignment *)

Definition with_status (s : Status) (t : AgentTask) : AgentTask :=
  mkAgentTask (agent_id t) (prompt t) (name t) s (result t)
              (started_at t) (ended_at t) (error t).
Definition with_result (r : str) (t : AgentTask) : AgentTask :=
  mkAgentTask (agent_id t) (prompt t) (name t) (status t) r
              (started_at t) (ended_at t) (error t).
Definition with_started_at (d : str) (t : AgentTask) : AgentTask :=
  mkAgentTask (agent_id t) (prompt t) (name t) (status t) (result t)
              (Some d) (ended_at t) (error t).
Definition with_ended_at (d : str) (t : AgentTask) : AgentTask :=
  mkAgentTask (agent_id t) (prompt t) (name t) (status t) (result t)
              (started_at t) (Some d) (error t).
Definition with_error (e : str) (t : AgentTask) : AgentTask :=
  mkAgentTask (agent_id t) (prompt t) (name t) (status t) (result t)
              (started_at t) (ended_at t) (Some e).

(** ** The method monad

    A method body runs against its [self] object and either returns a
    value or raises; assignments made before a raise stay in the
    object. *)
Module Method.

Inductive outcome (A : Type) : Type :=
| Return (a : A)
| Raise (e : exn).
Arguments Return {A} a.
Arguments Raise {A} e.

Definition M (A : Type) : Type := AgentTask -> outcome A * AgentTask.

Definition ret {A} (a : A) : M A := fun self => (Return a, self).

Definition bind {A B} (m : M A) (k : A -> M B) : M B :=
  fun self =>
    match m self with
    | (Return a, self') => k a self'
    | (Raise e, self') => (Raise e, self')
    end.

Definition raise {A} (e : exn) : M A := fun self => (Raise e, self).

(** [try: body except Exception as e: handler e] *)
Definition try_except {A} (body : M A) (handler : exn -> M A) : M A :=
  fun self =>
    match body self with
    | (Return a, self') => (Return a, self')
    | (Raise e, self') => handler e self'
    end.

Definition get_self : M AgentTask := fun self => (Return self, self).
Definition assign (f : AgentTask -> AgentTask) : M unit :=
  fun self => (Return tt, f self).

End Method.
Import Method.

#[global] Instance M_ret : MRet M := @ret.
#[global] Instance M_bind : MBind M := fun A B k m => bind m k.

(** ** The environment of one [execute] call *)

(** What [subprocess.Popen(["claude", prompt], ...)] followed by
    [process.communicate()] does. *)
Inductive subprocess_run :=
| LaunchError (e : exn)
    (* [Popen] raises: the command is missing or cannot be started *)
| CommunicateError (e : exn)
    (* [communicate] raises, e.g. the output is not valid UTF-8 *)
| Exited (returncode : Z) (stdout stderr : str).

(** The answers of the environment during one call of [execute]: the
    two values of [datetime.now().isoformat()], the draw of
    [random.uniform(2, 5)] (in milliseconds) and the behaviour of the
    external command. *)
Record Env := {
  now_start : str;
  uniform_2_5 : nat;
  claude : subprocess_run;
  now_end : str
}.

Record Popen_object := { po_run : subprocess_run }.

Definition Popen (env : Env) (argv : list str) : M Popen_object :=
  match claude env with
  | LaunchError e => raise e
  | r => ret {| po_run := r |}
  end.

Definition communicate (process : Popen_object) : M (str * str) :=
  match po_run process with
  | LaunchError e | CommunicateError e => raise e
  | Exited _ stdout stderr => ret (stdout, stderr)
  end.

Definition returncode (process : Popen_object) : Z :=
  match po_run process with
  | Exited rc _ _ => rc
  | _ => 0%Z
  end.

(** [time.sleep]: no effect on the object. *)
Definition sleep (ms : nat) : M unit := ret tt.

(** ** AgentTask.execute

    [debug_log] catches what it raises and only appends to the debug
    log; its calls are left out. *)

Definition mock_result (self : AgentTask) : str :=
  py "MOCK RESULT for " ++ name self ++ py ": Analyzed "
     ++ take 30 (prompt self) ++ py "... found 3 issues.".

Definition execute (test_mode : bool) (env : Env) : M AgentTask :=
  assign (with_status running) ;;
  assign (with_started_at (now_start env)) ;;
  try_except
    (if test_mode then
       let sleep_time := uniform_2_5 env in
       sleep sleep_time ;;
       self ← get_self ;
       assign (with_result (mock_result self)) ;;
       assign (with_status completed)
     else
       self ← get_self ;
       process ← Popen env [py "claude"; prompt self] ;
       '(stdout, stderr) ← communicate process ;
       assign (with_result stdout) ;;
       if negb (returncode process =? 0)%Z then
         assign (with_status failed) ;;
         assign (with_error stderr)
       else
         assign (with_status completed))
    (fun e =>
       assign (with_status failed) ;;
       assign (with_error (exn_str e))) ;;
  assign (with_ended_at (now_end env)) ;;
  get_self.

(** The task object after [self.execute(test_mode)]. *)
Definition executed (test_mode : bool) (env : Env) (self : AgentTask)
  : AgentTask :=
  snd (execute test_mode env self).

(** ** Orchestrator *)

(** Paths are relative to [Path.home()]; [p / c] appends one
    component.  Every component here is a literal of the source or is
    built from the first characters of a UUID's text, so none holds a
    separator. *)
Definition path := list str.
Definition joinpath (p : path) (c : str) : path := p ++ [c].
Declare Scope path_scope.
Infix "/" := joinpath : path_scope.
Delimit Scope path_scope with path.
Bind Scope path_scope with path.

(** The file [debug_log] appends to. *)
Definition DEBUG_LOG : path := [py ".claude"; py "data"; py "hook_debug.log"].

Definition CLAUDE_DIR : path := [py ".claude"].
Definition DATA_DIR : path := (CLAUDE_DIR / py "data")%path.
Definition ORCHESTRATOR_STATE_FILE : path :=
  (DATA_DIR / py "orchestrator-state.json")%path.

(** What [write_text] leaves in a file: the text of a report, or the
    value that [json.dumps] rendered. *)
Inductive file :=
| Text (s : str)
| Json (j : json).

Definition file_encodable (f : file) : bool :=
  match f with
  | Text s => encodable s
  | Json j => json_encodable j
  end.

(** The process state outside the orchestrator object: the files
    below the home directory, the number of [uuid.uuid4()] draws and
    of clock readings made so far, and the successive contents written
    to the state file (oldest first).

    [debug_log] is left out of the methods below.  Each of its calls
    appends a line to [DEBUG_LOG] and reads the clock for that line:
    [files] tells nothing about [DEBUG_LOG], and [clock_reads] counts
    the readings the program keeps, those of [started_at], [ended_at]
    and of the snapshot's timestamp. *)
Record World := mkWorld {
  files : gmap path file;
  uuid_draws : nat;
  clock_reads : nat;
  state_writes : list json
}.

(** [p.write_text(text, encoding="utf-8")] for a text that can be
    encoded, see [file_encodable]; on any other text the call raises
    [UnicodeEncodeError], and what is stated of a write below is
    stated of a text that can be encoded. *)
Definition write_text (p : path) (f : file) (w : World) : World :=
  mkWorld (<[p := f]> (files w)) (uuid_draws w) (clock_reads w)
          (state_writes w).

(** The attributes of an [Orchestrator] object; [results] is never
    read or written after [__init__] and is left out. *)
Record Orchestrator := mkOrchestrator {
  main_prompt : str;
  agent_count : Z;
  test_mode : bool;
  session_id : str;
  tasks : list AgentTask
}.

Definition with_tasks (ts : list AgentTask) (o : Orchestrator)
  : Orchestrator :=
  mkOrchestrator (main_prompt o) (agent_count o) (test_mode o)
                 (session_id o) ts.

Record role := mkRole { perspective : str; agent : str; skills : str }.

Definition agent_map : list role := [
  mkRole (py "Architecture & Security") (py "security-auditor")
         (py "security-checklist, api-patterns");
  mkRole (py "Backend Implementation") (py "backend-specialist")
         (py "nodejs-best-practices, api-patterns");
  mkRole (py "Frontend & UI/UX") (py "frontend-specialist")
         (py "react-patterns, tailwind-patterns");
  mkRole (py "Testing") (py "test-engineer")
         (py "testing-patterns, webapp-testing");
  mkRole (py "DevOps & Performance") (py "devops-engineer")
         (py "deployment-procedures, server-management")
].

#[global] Instance role_inhabited : Inhabited role :=
  populate (mkRole [] [] []).

(** [range(n)] *)
Definition range (n : Z) : list nat := seq 0 (Z.to_nat n).

Definition sub_prompt_of (map_item : role) (main_prompt : str) : str :=
  py "Use the " ++ agent map_item ++ py " agent with " ++ skills map_item
     ++ py " skills to focus on " ++ perspective map_item ++ py ": "
     ++ main_prompt.

Section Oracles.

(** [uuid4 k]: the text of the [k]-th UUID drawn in the process;
    [now k]: the text of the [k]-th clock reading. *)
Variable uuid4 : nat -> str.
Variable now : nat -> str.

Definition draw_uuid (w : World) : str * World :=
  (uuid4 (uuid_draws w),
   mkWorld (files w) (S (uuid_draws w)) (clock_reads w) (state_writes w)).

Definition read_clock (w : World) : str * World :=
  (now (clock_reads w),
   mkWorld (files w) (uuid_draws w) (S (clock_reads w)) (state_writes w)).

Definition Orchestrator_init (main_prompt : str) (agent_count : Z)
    (test_mode : bool) (w : World) : Orchestrator * World :=
  let '(session_id, w) := draw_uuid w in
  (mkOrchestrator main_prompt agent_count test_mode session_id [], w).

(** One round of the loop of [initialize_tasks]. *)
Definition initialize_task (st : Orchestrator * World) (i : nat)
  : Orchestrator * World :=
  let '(self, w) := st in
  let map_item := agent_map !!! (i mod length agent_map) in
  let agent_name := agent map_item in
  let sub_prompt := sub_prompt_of map_item (main_prompt self) in
  let '(agent_id, w) := draw_uuid w in
  let task := AgentTask_init agent_id sub_prompt agent_name in
  (with_tasks (tasks self ++ [task]) self, w).

Definition initialize_tasks (self : Orchestrator) (w : World)
  : Orchestrator * World :=
  foldl initialize_task (self, w) (range (agent_count self)).

(** The task that [initialize_tasks] creates for slot [i] when its
    identifier is the [d]-th draw. *)
Definition derived_task (main_prompt : str) (d i : nat) : AgentTask :=
  let map_item := agent_map !!! (i mod length agent_map) in
  AgentTask_init (uuid4 d) (sub_prompt_of map_item main_prompt)
                 (agent map_item).

Definition result_snippet (t : AgentTask) : str :=
  match result t with
  | [] => py ""
  | _ => take 200 (result t)
  end.

Definition task_state (t : AgentTask) : json :=
  JObj [ (py "id", JStr (agent_id t));
         (py "name", JStr (name t));
         (py "status", JStr (status_str (status t)));
         (py "started_at", json_of_option (started_at t));
         (py "ended_at", json_of_option (ended_at t));
         (py "result_snippet", JStr (result_snippet t)) ].

(** The dict of [save_state], given the clock reading and the
    entries its list comprehension built. *)
Definition state_record (self : Orchestrator) (timestamp : str)
    (entries : list json) : json :=
  JObj [ (py "session_id", JStr (session_id self));
         (py "timestamp", JStr timestamp);
         (py "main_prompt", JStr (main_prompt self));
         (py "tasks", JList entries) ].

(** [ORCHESTRATOR_STATE_FILE.write_text(json.dumps(state, ...))] *)
Definition write_state (state : json) (w : World) : World :=
  let w := write_text ORCHESTRATOR_STATE_FILE (Json state) w in
  mkWorld (files w) (uuid_draws w) (clock_reads w)
          (state_writes w ++ [state]).

Definition save_state (self : Orchestrator) (w : World) : World :=
  let '(timestamp, w) := read_clock w in
  let state := state_record self timestamp (task_state <$> tasks self) in
  write_state state w.

Definition report_header (self : Orchestrator) : str :=
  let synthesis_content := py "# Parallel Agents Synthesis Report" ++ nl in
  let synthesis_content :=
    synthesis_content ++ py "**Session ID**: " ++ session_id self ++ nl in
  let synthesis_content :=
    synthesis_content ++ py "**Main Objective**: " ++ main_prompt self
                      ++ nl ++ nl in
  synthesis_content ++ py "---" ++ nl ++ nl.

(** What one round of the loop of [synthesize] appends. *)
Definition report_section (t : AgentTask) : str :=
  (py "### " ++ name t ++ nl)
    ++ (py "- **Task**: " ++ take 100 (prompt t) ++ py "..." ++ nl)
    ++ (py "- **Status**: " ++ status_str (status t) ++ nl)
    ++ (py "- **Key Findings**:" ++ nl ++ nl
           ++ match result t with
              | [] => py "No output generated."
              | r => r
              end ++ nl ++ nl)
    ++ (py "---" ++ nl ++ nl).

Definition report_file_of (self : Orchestrator) : path :=
  let reports_dir := (DATA_DIR / py "reports")%path in
  (reports_dir
     / (py "synthesis_report_" ++ take 8 (session_id self) ++ py ".md"))%path.

Definition synthesize (self : Orchestrator) (w : World)
  : Orchestrator * World :=
  let synthesis_content := report_header self in
  let synthesis_content :=
    foldl (fun synthesis_content t => synthesis_content ++ report_section t)
          synthesis_content (tasks self) in
  let report_file := report_file_of self in
  (self, write_text report_file (Text synthesis_content) w).

End Oracles.

(** ** Orchestrator.run: the main thread and the workers of the pool

    [run] hands every task's [execute] to a [ThreadPoolExecutor] and
    writes a snapshot each time [as_completed] yields a future, while
    the other tasks are still being executed.  A worker is followed
    through the attribute assignments of [execute], one per step; the
    main thread through the statements of [run], the list
    comprehension of [save_state] reading one task per step.  A
    schedule tells which thread moves next. *)

(** The assignments [execute] makes to its task. *)
Inductive write :=
| WStatus (s : Status)
| WStartedAt
| WEndedAt
| WResult (r : str)
| WError (e : str).

#[global] Instance write_eq_dec : EqDecision write.
Proof. solve_decision. Defined.

Definition execute_writes (test_mode : bool) (c : subprocess_run)
    (self : AgentTask) : list write :=
  [WStatus running; WStartedAt]
    ++ (if test_mode then
          [WResult (mock_result self); WStatus completed]
        else
          match c with
          | LaunchError e | CommunicateError e =>
              [WStatus failed; WError (exn_str e)]
          | Exited rc stdout stderr =>
              WResult stdout
                :: (if negb (rc =? 0)%Z then [WStatus failed; WError stderr]
                    else [WStatus completed])
          end)
    ++ [WEndedAt].

(** One assignment; [timestamp] is the clock reading at that moment. *)
Definition apply_write (timestamp : str) (op : write) (t : AgentTask)
  : AgentTask :=
  match op with
  | WStatus s => with_status s t
  | WStartedAt => with_started_at timestamp t
  | WEndedAt => with_ended_at timestamp t
  | WResult r => with_result r t
  | WError e => with_error e t
  end.

Definition reads_clock (op : write) : bool :=
  match op with
  | WStartedAt | WEndedAt => true
  | _ => false
  end.

(** Where [save_state] returns to. *)
Inductive after_save := ThenSpawn | ThenAwait.

(** The position of the main thread in [run]. *)
Inductive main_pc :=
| MStart
| MSaveState (k : after_save) (timestamp : str) (entries : list json)
    (* in the list comprehension of [save_state] *)
| MSpawn
    (* about to enter [with ThreadPoolExecutor(...)] *)
| MAwait
    (* in [for future in as_completed(futures)] *)
| MSynthesize
| MDone
| MRaised (e : exn).

Record RunState := mkRun {
  orch : Orchestrator;
  world : World;
  main : main_pc;
  workers : list (list write);
    (* per task, the assignments its worker has still to make *)
  yielded : list nat
    (* the futures [as_completed] has handed out, by task slot *)
}.

Inductive event :=
| Main (pick : nat)
    (* the main thread moves; [pick] is the future [as_completed]
       would yield next *)
| Worker (i : nat).

(** [ThreadPoolExecutor.__init__] refuses [max_workers <= 0]. *)
Definition max_workers_error : exn :=
  Exception (py "ValueError") (py "max_workers must be greater than 0").

(** [DATA_DIR.mkdir(parents=True, exist_ok=True)]: directories are
    implicit in the file map. *)
Definition ensure_dirs (w : World) : World := w.

Section Run.

Variable uuid4 : nat -> str.
Variable now : nat -> str.
(** The behaviour of the external command started for task [i]. *)
Variable claude_of : nat -> subprocess_run.

(** One move of the worker that executes task [i]: its next
    assignment. *)
Definition worker_step (i : nat) (st : RunState) : RunState :=
  match workers st !! i, tasks (orch st) !! i with
  | Some (op :: rest), Some t =>
      let '(timestamp, w) :=
        if reads_clock op then read_clock now (world st)
        else ([], world st) in
      mkRun (with_tasks (<[i := apply_write timestamp op t]> (tasks (orch st)))
                        (orch st))
            w (main st) (<[i := rest]> (workers st)) (yielded st)
  | _, _ => st
  end.

(** One move of the main thread.  The [print] calls and [debug_log]
    write to the terminal and to the debug log only and are left out.
    [future.result()] returns the task, since [execute] does not raise,
    so the [except] branch of the loop is never entered. *)
Definition main_step (pick : nat) (st : RunState) : RunState :=
  match main st with
  | MStart =>
      (* self.ensure_dirs(); self.initialize_tasks(); then
         self.save_state() up to its list comprehension *)
      let w := ensure_dirs (world st) in
      let '(o, w) := initialize_tasks uuid4 (orch st) w in
      let '(timestamp, w) := read_clock now w in
      mkRun o w (MSaveState ThenSpawn timestamp []) (workers st) (yielded st)
  | MSaveState k timestamp entries =>
      (* [{...} for t in self.tasks], then write_text *)
      match tasks (orch st) !! length entries with
      | Some t =>
          mkRun (orch st) (world st)
                (MSaveState k timestamp (entries ++ [task_state t]))
                (workers st) (yielded st)
      | None =>
          let state := state_record (orch st) timestamp entries in
          mkRun (orch st) (write_state state (world st))
                (match k with ThenSpawn => MSpawn | ThenAwait => MAwait end)
                (workers st) (yielded st)
      end
  | MSpawn =>
      (* with ThreadPoolExecutor(max_workers=self.agent_count) as executor:
           futures = {executor.submit(task.execute, self.test_mode): task
                      for task in self.tasks} *)
      if (agent_count (orch st) <=? 0)%Z then
        mkRun (orch st) (world st) (MRaised max_workers_error)
              (workers st) (yielded st)
      else
        mkRun (orch st) (world st) MAwait
              (imap (fun i task =>
                       execute_writes (test_mode (orch st)) (claude_of i) task)
                    (tasks (orch st)))
              []
  | MAwait =>
      (* for future in as_completed(futures):
           task = future.result(); self.save_state() *)
      if decide (length (yielded st) = length (tasks (orch st))) then
        mkRun (orch st) (world st) MSynthesize (workers st) (yielded st)
      else if decide (workers st !! pick = Some [] /\ pick ∉ yielded st) then
        let '(timestamp, w) := read_clock now (world st) in
        mkRun (orch st) w (MSaveState ThenAwait timestamp [])
              (workers st) (yielded st ++ [pick])
      else st
  | MSynthesize =>
      (* self.synthesize() *)
      let '(o, w) := synthesize (orch st) (world st) in
      mkRun o w MDone (workers st) (yielded st)
  | MDone | MRaised _ => st
  end.

Definition step (st : RunState) (ev : event) : RunState :=
  match ev with
  | Main pick => main_step pick st
  | Worker i => worker_step i st
  end.

Definition exec (schedule : list event) (st : RunState) : RunState :=
  foldl step st schedule.

(** [Orchestrator(main_prompt, agent_count, test_mode).run()] in a
    process whose state is [w0]: what is on disk from earlier
    sessions, and what an earlier call of [main()] in the same process
    has drawn, read and written. *)
Definition start_from (w0 : World) (main_prompt : str) (agent_count : Z)
    (test_mode : bool) : RunState :=
  let '(o, w) :=
    Orchestrator_init uuid4 main_prompt agent_count test_mode w0 in
  mkRun o w MStart [] [].

Definition run_from (w0 : World) (main_prompt : str) (agent_count : Z)
    (test_mode : bool) (schedule : list event) : RunState :=
  exec schedule (start_from w0 main_prompt agent_count test_mode).

(** The run taken by itself: its own draws and clock readings are
    counted from 0, and [files] and [state_writes] hold what the run
    itself has written.  The program never reads a file, so the run
    from any other state is this one laid over that state, see
    [run_from_over]. *)
Definition fresh_world : World := mkWorld ∅ 0 0 [].

Definition start (main_prompt : str) (agent_count : Z) (test_mode : bool)
  : RunState :=
  start_from fresh_world main_prompt agent_count test_mode.

Definition run (main_prompt : str) (agent_count : Z) (test_mode : bool)
    (schedule : list event) : RunState :=
  exec schedule (start main_prompt agent_count test_mode).

End Run.

(** [f] from its [d]-th value on. *)
Definition shift (f : nat -> str) (d : nat) : nat -> str := fun k => f (d + k).

(** The world of a run that started in [w0], from what the run itself
    drew, read and wrote: a file the run wrote hides the one of that
    path in [w0]. *)
Definition over (w0 w : World) : World :=
  mkWorld (files w ∪ files w0) (uuid_draws w0 + uuid_draws w)
          (clock_reads w0 + clock_reads w) (state_writes w0 ++ state_writes w).

Definition over_run (w0 : World) (st : RunState) : RunState :=
  mkRun (orch st) (over w0 (world st)) (main st) (workers st) (yielded st).

(** ** Reading a snapshot *)

Fixpoint lookup_key (key : str) (items : list (str * json)) : option json :=
  match items with
  | [] => None
  | (k, v) :: items' => if decide (k = key) then Some v else lookup_key key items'
  end.

(** The per-task entries of a snapshot. *)
Definition snapshot_entries (state : json) : list json :=
  match state with
  | JObj items =>
      match lookup_key (py "tasks") items with
      | Some (JList entries) => entries
      | _ => []
      end
  | _ => []
  end.

(** Whether an entry records a terminal status. *)
Definition entry_terminal (entry : json) : bool :=
  match entry with
  | JObj items =>
      match lookup_key (py "status") items with
      | Some (JStr s) =>
          bool_decide (s = py "completed") || bool_decide (s = py "failed")
      | _ => false
      end
  | _ => false
  end.

Fixpoint count_true (flags : list bool) : nat :=
  match flags with
  | [] => 0
  | b :: flags' => (if b then 1 else 0) + count_true flags'
  end.

(** The number of tasks a snapshot records with a terminal status. *)
Definition terminal_count (state : json) : nat :=
  count_true (entry_terminal <$> snapshot_entries state).

(** Each element is at most the next one. *)
Definition nondecreasing (l : list nat) : Prop :=
  forall i a b, l !! i = Some a -> l !! S i = Some b -> a <= b.

(** ** Reachable states of a run *)

(** [runs_to t done t']: making the assignments [done] on [t], each at
    some clock reading, gives [t']. *)
Inductive runs_to : AgentTask -> list write -> AgentTask -> Prop :=
| runs_nil t : runs_to t [] t
| runs_cons t timestamp op done t' :
    runs_to (apply_write timestamp op t) done t' ->
    runs_to t (op :: done) t'.

(** An assignment that cannot take a task out of a terminal status. *)
Definition keeps_terminal (op : write) : bool :=
  match op with
  | WStatus s => terminal s
  | _ => true
  end.

(** Whether the pool has been started at this point of [run]. *)
Definition spawned (pc : main_pc) : bool :=
  match pc with
  | MSaveState ThenAwait _ _ | MAwait | MSynthesize | MDone => true
  | _ => false
  end.

(** Whether [as_completed] has been exhausted. *)
Definition drained (pc : main_pc) : bool :=
  match pc with
  | MSynthesize | MDone => true
  | _ => false
  end.

(** [a] flags a task only where [b] flags it too. *)
Definition below (a b : list bool) : Prop :=
  forall i, a !! i = Some true -> b !! i = Some true.

Definition task_flags (st : RunState) : list bool :=
  (fun t => terminal (status t)) <$> tasks (orch st).

Definition report_of (o : Orchestrator) : str :=
  report_header o ++ concat (report_section <$> tasks o).

Section Invariant.

Variable uuid4 : nat -> str.
Variable claude_of : nat -> subprocess_run.
Variable P : str.
Variable n : Z.
Variable tm : bool.

(** The tasks of the run as [initialize_tasks] creates them; the
    session id was the first draw. *)
Definition T0 : list AgentTask :=
  (fun k => derived_task uuid4 P (1 + k) k) <$> seq 0 (Z.to_nat n).

(** What holds in every state of
    [Orchestrator(P, n, tm).run()]. *)
Record Inv (st : RunState) : Prop := mkInv {
  inv_prompt : main_prompt (orch st) = P;
  inv_count : agent_count (orch st) = n;
  inv_mode : test_mode (orch st) = tm;
  inv_session : session_id (orch st) = uuid4 0;
  inv_start :
    main st = MStart ->
    tasks (orch st) = [] /\ state_writes (world st) = []
    /\ uuid_draws (world st) = 1;
  inv_derived :
    main st <> MStart -> spawned (main st) = false -> tasks (orch st) = T0;
  inv_idle :
    spawned (main st) = false -> workers st = [] /\ yielded st = [];
  inv_flight :
    spawned (main st) = true ->
    (0 < n)%Z /\ length (tasks (orch st)) = length T0
    /\ length (workers st) = length T0
    /\ forall i t0 t ws,
         T0 !! i = Some t0 -> tasks (orch st) !! i = Some t ->
         workers st !! i = Some ws ->
         exists done,
           execute_writes tm (claude_of i) t0 = done ++ ws /\ runs_to t0 done t;
  inv_yielded :
    NoDup (yielded st) /\ forall i, i ∈ yielded st -> workers st !! i = Some [];
  inv_drained :
    drained (main st) = true -> length (yielded st) = length T0;
  inv_raised :
    forall e, main st = MRaised e -> e = max_workers_error /\ (n <= 0)%Z;
  inv_files :
    forall p, is_Some (files (world st) !! p) ->
      p = ORCHESTRATOR_STATE_FILE
      \/ (main st = MDone /\ p = report_file_of (orch st));
  inv_report :
    main st = MDone ->
    files (world st) !! report_file_of (orch st)
      = Some (Text (report_of (orch st)));
  inv_mono :
    nondecreasing (terminal_count <$> state_writes (world st));
  inv_last :
    forall state, last (state_writes (world st)) = Some state ->
      below (entry_terminal <$> snapshot_entries state) (task_flags st);
  inv_saving :
    forall k timestamp entries, main st = MSaveState k timestamp entries ->
      below (entry_terminal <$> entries) (task_flags st)
      /\ forall state i, last (state_writes (world st)) = Some state ->
           i < length entries ->
           (entry_terminal <$> snapshot_entries state) !! i = Some true ->
           (entry_terminal <$> entries) !! i = Some true
}.

End Invariant.

(** How far the main thread is on its way to the pool, and how often
    a schedule lets it move. *)
Definition stage (pc : main_pc) : nat :=
  match pc with
  | MStart => 0
  | MSaveState ThenSpawn _ _ => 1
  | MSpawn => 2
  | MRaised _ => 3
  | _ => 4
  end.

Fixpoint main_moves (schedule : list event) : nat :=
  match schedule with
  | [] => 0
  | Main _ :: schedule' => S (main_moves schedule')
  | Worker _ :: schedule' => main_moves schedule'
  end.

#[global] Instance exn_eq_dec : EqDecision exn.
Proof. solve_decision. Defined.

Definition raised_with (e : exn) (pc : main_pc) : bool :=
  match pc with
  | MRaised e' => bool_decide (e' = e)
  | _ => false
  end.

(** ** The life cycle of a task *)

(** What the attributes of a task may look like together, at any
    moment: nothing is set while the status is [pending]; [ended_at]
    and [error] are set only after the status they go with; a terminal
    status comes after [started_at]. *)
Definition lifecycle_ok (t : AgentTask) : bool :=
  match status t with
  | pending =>
      bool_decide (started_at t = None) && bool_decide (ended_at t = None)
      && bool_decide (result t = []) && bool_decide (error t = None)
  | running =>
      bool_decide (ended_at t = None) && bool_decide (error t = None)
  | completed =>
      bool_decide (started_at t <> None) && bool_decide (error t = None)
  | failed =>
      bool_decide (started_at t <> None)
  end.

(** A task as the constructor leaves it. *)
Definition fresh (t : AgentTask) : Prop :=
  status t = pending /\ result t = [] /\ started_at t = None
  /\ ended_at t = None /\ error t = None.

(** What [execute] leaves in the status and in [error] of a fresh
    task, by mode and by what the external command did. *)
Definition outcome_status (test_mode : bool) (c : subprocess_run) : Status :=
  if test_mode then completed
  else match c with
       | Exited rc _ _ => if (rc =? 0)%Z then completed else failed
       | LaunchError _ | CommunicateError _ => failed
       end.

Definition outcome_error (test_mode : bool) (c : subprocess_run)
  : option str :=
  if test_mode then None
  else match c with
       | Exited rc _ stderr => if (rc =? 0)%Z then None else Some stderr
       | LaunchError e | CommunicateError e => Some (exn_str e)
       end.

(** A second sample process: the command of slot 0 exits with status 1
    and "not found" on stderr, the others succeed. *)
Definition sample_real_claude_of (i : nat) : subprocess_run :=
  match i with
  | 0 => Exited 1 (py "") (py "not found")
  | _ => Exited 0 (py "done") (py "")
  end.
Definition sample_real_schedule : list event :=
  replicate 5 (Main 0)
    ++ replicate 6 (Worker 1) ++ replicate 6 (Worker 0)
    ++ Main 1 :: replicate 3 (Main 0)
    ++ Main 0 :: replicate 3 (Main 0)
    ++ [Main 0; Main 0].

(** ** The snapshots of a run *)

(** Whether the snapshot the main thread is heading for or building
    is still to be written. *)
Definition to_write (pc : main_pc) : nat :=
  match pc with
  | MStart | MSaveState _ _ _ => 1
  | _ => 0
  end.

(** The main thread is in the loop over the futures or past it, and
    not inside [save_state]. *)
Definition between_saves (pc : main_pc) : bool :=
  match pc with
  | MAwait | MSynthesize | MDone => true
  | _ => false
  end.

Definition all_terminal (entries : list json) : Prop :=
  Forall (fun e => entry_terminal e = true) entries.

Section SnapshotInvariant.

Variable uuid4 : nat -> str.
Variable P : str.
Variable n : Z.

(** What holds of the snapshots in every state of
    [Orchestrator(P, n, tm).run()]. *)
Record SnapInv (st : RunState) : Prop := mkSnapInv {
  snap_count :
    length (state_writes (world st)) + to_write (main st)
      = 1 + length (yielded st);
  snap_file :
    files (world st) !! ORCHESTRATOR_STATE_FILE
      = Json <$> last (state_writes (world st));
  snap_sizes :
    Forall (fun state => length (snapshot_entries state) = Z.to_nat n)
           (state_writes (world st));
  snap_first :
    forall state, state_writes (world st) !! 0 = Some state ->
      snapshot_entries state = task_state <$> T0 uuid4 P n;
  snap_building :
    forall k timestamp entries, main st = MSaveState k timestamp entries ->
      length entries <= Z.to_nat n
      /\ (k = ThenSpawn ->
          entries = task_state <$> take (length entries) (T0 uuid4 P n))
      /\ (k = ThenAwait ->
          yielded st <> []
          /\ (length (yielded st) = Z.to_nat n -> all_terminal entries));
  snap_final :
    between_saves (main st) = true ->
    length (yielded st) = Z.to_nat n ->
    forall state, last (state_writes (world st)) = Some state ->
      all_terminal (snapshot_entries state)
}.

End SnapshotInvariant.

(** ** main *)

(** [l.index(x)]: the first position of [x] in [l]; [None] where
    Python raises [ValueError]. *)
Fixpoint index (x : str) (l : list str) : option nat :=
  match l with
  | [] => None
  | y :: l' => if decide (y = x) then Some 0 else S <$> index x l'
  end.

(** What [main] does: print the usage line and return, or construct
    an orchestrator and call its [run]. *)
Inductive main_outcome :=
| Usage
| Ran (st : RunState).

Section Main.

Variable uuid4 : nat -> str.
Variable now : nat -> str.
Variable claude_of : nat -> subprocess_run.
(** The builtin [int] on a [str]: [None] where it raises
    [ValueError]. *)
Variable int : str -> option Z.

(** The function [main] of the script ([main] names the main thread's
    position here), with [argv] for [sys.argv].  An exception of [run]
    is logged and raised again, so the outcome of [run] is the outcome
    of [main]. *)
Definition cli_main (argv : list str) (schedule : list event) : main_outcome :=
  if decide (length argv < 2) then Usage
  else
    let prompt := argv !!! 1 in
    let agents := 3%Z in
    let test_mode := bool_decide (py "--test" ∈ argv) in
    let agents :=
      if bool_decide (py "--agents" ∈ argv) then
        match index (py "--agents") argv with
        | Some idx =>
            if decide (idx + 1 < length argv) then
              match int (argv !!! (idx + 1)) with
              | Some value => value
              | None => agents
              end
            else agents
        | None => agents
        end
      else agents in
    Ran (run uuid4 now claude_of prompt agents test_mode schedule).

End Main.

(** A reading of decimal literals, to run [main] on sample command
    lines: it agrees with [int] on an optional minus sign followed by
    ASCII digits and refuses everything else. *)
Fixpoint digits_value (acc : Z) (s : str) : option Z :=
  match s with
  | [] => Some acc
  | c :: s' =>
      if ((48 <=? c) && (c <=? 57))%N
      then digits_value (10 * acc + Z.of_N (c - 48)) s'
      else None
  end.

Definition sample_int (s : str) : option Z :=
  match s with
  | [] => None
  | 45%N :: [] => None
  | 45%N :: s' => Z.opp <$> digits_value 0 s'
  | _ => digits_value 0 s
  end.

(** The attributes of a task that are assigned in the constructor
    only. *)
Definition frozen (t : AgentTask) : str * str * str :=
  (agent_id t, prompt t, name t).

(** What holds of the snapshots and the yielded futures in every
    state of a run: the snapshot of position [i] records at least [i]
    terminal tasks, and the entries being built record the yielded
    tasks as terminal. *)
Record YieldInv (st : RunState) : Prop := mkYieldInv {
  yield_writes :
    forall i state, state_writes (world st) !! i = Some state ->
      i <= terminal_count state;
  yield_building :
    forall k timestamp entries, main st = MSaveState k timestamp entries ->
      forall j, j ∈ yielded st -> j < length entries ->
        (entry_terminal <$> entries) !! j = Some true
}.

(** The positions that a list of flags marks, counted from [base]. *)
Fixpoint true_slots (base : nat) (flags : list bool) : list nat :=
  match flags with
  | [] => []
  | b :: flags' => (if b then [base] else []) ++ true_slots (S base) flags'
  end.

(** The timestamps of a task against the clock: when the clock has
    been read [c] times, [started_at] is one of these readings and
    [ended_at], if set, is a later one. *)
Definition clock_ok (now : nat -> str) (c : nat) (t : AgentTask) : Prop :=
  match started_at t, ended_at t with
  | None, None => True
  | Some s, None => exists k1, k1 < c /\ s = now k1
  | Some s, Some e =>
      exists k1 k2, k1 < k2 /\ k2 < c /\ s = now k1 /\ e = now k2
  | None, Some _ => False
  end.

Definition clock_inv (now : nat -> str) (st : RunState) : Prop :=
  forall i t, tasks (orch st) !! i = Some t ->
    clock_ok now (clock_reads (world st)) t.

(** ** Statements that are compared with the code *)

(** Real mode as the specification words it: exit status 0 gives
    [completed] with the captured stdout as result; a nonzero exit
    status gives [failed] with a nonempty error equal to the captured
    stderr, the result still being the captured stdout. *)
Definition real_mode_outcome_as_specified (env : Env) (self : AgentTask)
  : Prop :=
  forall rc stdout stderr,
    claude env = Exited rc stdout stderr ->
    let self' := executed false env self in
    (rc = 0%Z -> status self' = completed /\ result self' = stdout) /\
    (rc <> 0%Z ->
       status self' = failed /\ result self' = stdout /\
       exists e, error self' = Some e /\ e <> [] /\ e = stderr).

(** The report path as the specification words it: different session
    identifiers give different report files. *)
Definition report_path_as_specified (o1 o2 : Orchestrator) : Prop :=
  session_id o1 <> session_id o2 -> report_file_of o1 <> report_file_of o2.

(** The scenario of the specification: objective "Review the login
    flow", two agents, mock mode.  As the specification words it, both
    tasks end [completed] and the mock result text of each mentions the
    "login flow" of the objective. *)
Definition login_flow_run_as_specified (uuid4 now : nat -> str)
    (claude_of : nat -> subprocess_run) (schedule : list event) : Prop :=
  let st := run uuid4 now claude_of (py "Review the login flow") 2 true
                schedule in
  main st = MDone ->
  exists t0 t1,
    tasks (orch st) = [t0; t1] /\
    status t0 = completed /\ status t1 = completed /\
    contains (py "login flow") (result t0) = true /\
    contains (py "login flow") (result t1) = true.

(** A process to run scenarios in: UUIDs and clock readings that count
    up, an external command that cannot be started, and a schedule that
    lets two workers finish one after the other. *)
Definition sample_uuid4 (k : nat) : str :=
  py "3f2b8c1e-0000-4000-8000-00000000000" ++ [N.of_nat (48 + k)].
Definition sample_now (k : nat) : str :=
  py "2024-05-01T10:00:" ++ [N.of_nat (48 + k / 10); N.of_nat (48 + k mod 10)].
Definition sample_claude_of (i : nat) : subprocess_run :=
  LaunchError (Exception (py "FileNotFoundError") (py "claude")).
Definition sample_schedule : list event :=
  replicate 5 (Main 0)
    ++ [Worker 1; Worker 0; Worker 1; Worker 1; Worker 0; Worker 1; Worker 1]
    ++ Main 1 :: replicate 2 (Main 0)
    ++ replicate 3 (Worker 0) ++ replicate 1 (Main 0)
    ++ Main 0 :: replicate 3 (Main 0)
    ++ [Main 0; Main 0].

(** * Properties *)

(** ** AgentTask.execute *)

Ltac run_method :=
  unfold executed, execute, Popen, communicate, returncode, sleep,
    mbind, M_bind, mret, M_ret, bind, ret, raise, try_except, assign, get_self;
  cbn.

(** What [execute] leaves in the object, case by case. *)
Lemma executed_mock env self :
  executed true env self =
  mkAgentTask (agent_id self) (prompt self) (name self) completed
              (mock_result self) (Some (now_start env)) (Some (now_end env))
              (error self).
Proof. run_method. reflexivity. Qed.

Lemma executed_exited env self rc stdout stderr :
  claude env = Exited rc stdout stderr ->
  executed false env self =
  mkAgentTask (agent_id self) (prompt self) (name self)
              (if (rc =? 0)%Z then completed else failed) stdout
              (Some (now_start env)) (Some (now_end env))
              (if (rc =? 0)%Z then error self else Some stderr).
Proof.
  intros Hrun. run_method. rewrite Hrun. cbn.
  destruct (rc =? 0)%Z; reflexivity.
Qed.

Lemma executed_raised env self e :
  claude env = LaunchError e \/ claude env = CommunicateError e ->
  executed false env self =
  mkAgentTask (agent_id self) (prompt self) (name self) failed (result self)
              (Some (now_start env)) (Some (now_end env)) (Some (exn_str e)).
Proof.
  intros [Hrun | Hrun]; run_method; rewrite Hrun; reflexivity.
Qed.

Lemma execute_returns_self test_mode env self :
  execute test_mode env self = (Return (executed test_mode env self),
                                executed test_mode env self).
Proof.
  destruct test_mode; run_method; [reflexivity |].
  destruct (claude env) as [e | e | rc stdout stderr]; cbn; try reflexivity.
  destruct (rc =? 0)%Z; reflexivity.
Qed.

(** C1. For every task and both modes, [execute] does not raise: it
    returns the task object itself, whose status is then terminal and
    whose [ended_at] is set; an exception of the invocation ([Popen] or
    [communicate] raising) leaves status [failed] and [error] equal to
    [str(e)]. *)
Theorem execute_never_raises (test_mode : bool) (env : Env) (self : AgentTask) :
  exists self',
    execute test_mode env self = (Return self', self') /\
    terminal (status self') = true /\
    ended_at self' = Some (now_end env) /\
    (agent_id self', prompt self', name self')
      = (agent_id self, prompt self, name self) /\
    forall e,
      test_mode = false ->
      claude env = LaunchError e \/ claude env = CommunicateError e ->
      status self' = failed /\ error self' = Some (exn_str e).
Proof.
  exists (executed test_mode env self).
  split; [apply execute_returns_self |].
  destruct test_mode.
  - rewrite executed_mock. cbn. split_and!; try reflexivity. discriminate.
  - destruct (claude env) as [e | e | rc stdout stderr] eqn:Hrun.
    + rewrite (executed_raised env self e) by auto. cbn.
      split_and!; try reflexivity.
      intros e' _ [[= ->] | [=]]. split; reflexivity.
    + rewrite (executed_raised env self e) by auto. cbn.
      split_and!; try reflexivity.
      intros e' _ [[=] | [= ->]]. split; reflexivity.
    + rewrite (executed_exited env self rc stdout stderr) by assumption. cbn.
      split_and!; try reflexivity.
      * destruct (rc =? 0)%Z; reflexivity.
      * intros e' _ [[=] | [=]].
Qed.

(** C2, as the code has it.  In real mode, when the external command
    exits, the result is the captured stdout; exit status 0 gives status
    [completed] and leaves [error] as it was; a nonzero exit status
    gives status [failed] and [error] equal to the captured stderr, be
    it empty or not. *)
Theorem execute_real_exit (now_start now_end : str) (sleep_time : nat)
    (rc : Z) (stdout stderr : str) (self : AgentTask) :
  let env := Build_Env now_start sleep_time (Exited rc stdout stderr) now_end in
  let self' := executed false env self in
  result self' = stdout /\
  status self' = (if (rc =? 0)%Z then completed else failed) /\
  error self' = (if (rc =? 0)%Z then error self else Some stderr).
Proof.
  intros env self'. subst self'.
  rewrite (executed_exited env self rc stdout stderr) by reflexivity.
  cbn. auto.
Qed.

(** C2 fails as worded: a command that exits with status 1 and writes
    nothing to stderr leaves an empty [error]. *)
Lemma execute_real_exit_silent_failure :
  ~ real_mode_outcome_as_specified
      (Build_Env (py "t0") 0 (Exited 1 (py "partial") (py "")) (py "t1"))
      (AgentTask_init (py "id") (py "do it") (py "worker")).
Proof.
  intros Hspec.
  destruct (Hspec 1%Z (py "partial") (py "") eq_refl) as [_ Hfail].
  destruct Hfail as (_ & _ & e & _ & Hne & He); [discriminate |].
  apply Hne. exact He.
Qed.

(** C10. In mock mode two executions of tasks with the same name and
    the same prompt both end [completed] with the same result text,
    whatever the clock readings and the drawn sleep times. *)
Theorem execute_mock_deterministic (env1 env2 : Env) (t1 t2 : AgentTask) :
  name t1 = name t2 ->
  prompt t1 = prompt t2 ->
  status (executed true env1 t1) = completed /\
  status (executed true env2 t2) = completed /\
  result (executed true env1 t1) = result (executed true env2 t2).
Proof.
  intros Hname Hprompt. rewrite !executed_mock. cbn.
  unfold mock_result. rewrite Hname, Hprompt. auto.
Qed.

Lemma execute_mock_deterministic_witness :
  let t1 := AgentTask_init (py "id-1") (py "Review the login flow") (py "a") in
  let t2 := with_status failed
              (AgentTask_init (py "id-2") (py "Review the login flow") (py "a")) in
  let env1 := Build_Env (py "t0") 2000 (LaunchError (Exception [] [])) (py "t1") in
  let env2 := Build_Env (py "t2") 4999 (Exited 1 [] []) (py "t3") in
  status (executed true env1 t1) = completed /\
  status (executed true env2 t2) = completed /\
  result (executed true env1 t1) = result (executed true env2 t2).
Proof.
  intros t1 t2 env1 env2.
  apply (execute_mock_deterministic env1 env2 t1 t2); reflexivity.
Defined.

(** ** Task derivation *)

Section Derivation.

Variable uuid4 : nat -> str.

Lemma initialize_task_loop (n : nat) : forall (a : nat) o w,
  foldl (initialize_task uuid4) (o, w) (seq a n) =
  (with_tasks
     (tasks o ++ ((fun k => derived_task uuid4 (main_prompt o)
                                         (uuid_draws w + k) (a + k))
                    <$> seq 0 n)) o,
   mkWorld (files w) (uuid_draws w + n) (clock_reads w) (state_writes w)).
Proof.
  induction n as [| n IH]; intros a o w.
  - cbn. rewrite app_nil_r, Nat.add_0_r. destruct o, w; reflexivity.
  - cbn [seq foldl]. unfold initialize_task at 2. cbn [draw_uuid].
    rewrite IH. cbn. f_equal.
    + unfold with_tasks. cbn. f_equal.
      rewrite <- app_assoc. cbn. f_equal. f_equal.
      * unfold derived_task. rewrite !Nat.add_0_r. reflexivity.
      * rewrite <- fmap_S_seq, <- list_fmap_compose.
        apply list_fmap_ext. intros _ k _. cbn.
        rewrite !Nat.add_succ_r. reflexivity.
    + f_equal. lia.
Qed.

Lemma initialize_tasks_eq o w :
  initialize_tasks uuid4 o w =
  (with_tasks
     (tasks o ++ ((fun k => derived_task uuid4 (main_prompt o) (uuid_draws w + k) k)
                    <$> seq 0 (Z.to_nat (agent_count o)))) o,
   mkWorld (files w) (uuid_draws w + Z.to_nat (agent_count o))
           (clock_reads w) (state_writes w)).
Proof. unfold initialize_tasks, range. apply initialize_task_loop. Qed.

End Derivation.

Lemma role_lookup (i : nat) :
  exists r, agent_map !! (i mod 5) = Some r /\
            agent_map !!! (i mod length agent_map) = r /\
            agent r <> [].
Proof.
  assert (i mod 5 < 5) as Hlt by (apply Nat.mod_upper_bound; discriminate).
  change (length agent_map) with 5.
  destruct (i mod 5) as [| [| [| [| [| k]]]]]; [.. | lia];
    eexists; (split; [reflexivity | split; [reflexivity | discriminate]]).
Qed.

(** C3. For every objective and every count >= 0, a new orchestrator's
    [initialize_tasks] creates exactly [count] tasks, slot [i] holding
    the task derived from entry [i mod 5] of the five-entry role table:
    its name is that entry's agent, its prompt renders the entry's
    agent, skills and perspective around the objective.  The
    identifiers are pairwise distinct, [uuid4] never repeating a
    value. *)
Theorem initialize_tasks_derives (uuid4 : nat -> str) (main_prompt : str)
    (count : Z) (test_mode : bool) (w : World) :
  (forall i j, uuid4 i = uuid4 j -> i = j) ->
  (0 <= count)%Z ->
  let new := Orchestrator_init uuid4 main_prompt count test_mode w in
  let ts := tasks (initialize_tasks uuid4 new.1 new.2).1 in
  Z.of_nat (length ts) = count /\
  NoDup (agent_id <$> ts) /\
  length agent_map = 5 /\
  forall i, (Z.of_nat i < count)%Z ->
    exists t r,
      ts !! i = Some t /\
      agent_map !! (i mod 5) = Some r /\
      name t = agent r /\
      prompt t = py "Use the " ++ agent r ++ py " agent with " ++ skills r
                    ++ py " skills to focus on " ++ perspective r ++ py ": "
                    ++ main_prompt /\
      status t = pending.
Proof.
  intros Hfresh Hcount new ts. subst ts new.
  rewrite initialize_tasks_eq. cbn.
  split_and!.
  - rewrite length_fmap, length_seq. lia.
  - rewrite <- list_fmap_compose.
    apply NoDup_fmap_2_strong; [| apply NoDup_seq].
    intros i j _ _ Heq. cbn in Heq. apply Hfresh in Heq. lia.
  - reflexivity.
  - intros i Hi.
    destruct (role_lookup i) as (r & Hr & Hr' & Hne).
    exists (derived_task uuid4 main_prompt (S (uuid_draws w) + i) i), r.
    split_and!; try assumption.
    + rewrite list_lookup_fmap, lookup_seq_lt by lia. reflexivity.
    + unfold derived_task. rewrite Hr'. cbn.
      destruct (agent r); [contradiction | reflexivity].
    + unfold derived_task. rewrite Hr'. reflexivity.
    + reflexivity.
Qed.

(** A generator that never repeats: the [k]-th text has [k] characters. *)
Lemma replicate_never_repeats (i j : nat) :
  replicate i 48%N = replicate j 48%N -> i = j.
Proof.
  intros Heq. apply (f_equal length) in Heq.
  rewrite !length_replicate in Heq. exact Heq.
Qed.

Lemma initialize_tasks_derives_witness :
  let uuid4 := fun k => replicate k 48%N in
  let new := Orchestrator_init uuid4 (py "Review the login flow") 7 false
                               (mkWorld ∅ 0 0 []) in
  let ts := tasks (initialize_tasks uuid4 new.1 new.2).1 in
  Z.of_nat (length ts) = 7%Z /\
  NoDup (agent_id <$> ts) /\
  length agent_map = 5 /\
  forall i, (Z.of_nat i < 7)%Z ->
    exists t r,
      ts !! i = Some t /\
      agent_map !! (i mod 5) = Some r /\
      name t = agent r /\
      prompt t = py "Use the " ++ agent r ++ py " agent with " ++ skills r
                    ++ py " skills to focus on " ++ perspective r ++ py ": "
                    ++ py "Review the login flow" /\
      status t = pending.
Proof.
  intros uuid4.
  apply (initialize_tasks_derives uuid4 (py "Review the login flow") 7 false
                                  (mkWorld ∅ 0 0 [])).
  - exact replicate_never_repeats.
  - lia.
Defined.

(** ** State snapshots *)

Lemma result_snippet_take (t : AgentTask) :
  result_snippet t = take 200 (result t).
Proof. unfold result_snippet. destruct (result t); reflexivity. Qed.

Lemma take_all_iff {A} (n : nat) (l : list A) :
  take n l = l <-> length l <= n.
Proof.
  split.
  - intros Heq. rewrite <- Heq, length_take. lia.
  - apply take_ge.
Qed.

(** C6.  [save_state] writes to the state file a record of the
    session id, the clock reading, the objective and, per task and in
    order, exactly the fields id, name, status, started_at, ended_at
    and result_snippet, when the text of that record can be encoded
    (the call raises otherwise).  The snippet is the result cut at 200
    characters, not the result text whatever its length: a prefix of
    it, at most 200 characters long, which is the whole result text
    only when that text has at most 200 characters.  The record does
    not depend on the task's [error]. *)
Theorem save_state_record (now : nat -> str) (self : Orchestrator) (w : World) :
  let w' := save_state now self w in
  let state :=
    JObj [ (py "session_id", JStr (session_id self));
           (py "timestamp", JStr (now (clock_reads w)));
           (py "main_prompt", JStr (main_prompt self));
           (py "tasks", JList (task_state <$> tasks self)) ] in
  json_encodable state = true ->
  files w' !! ORCHESTRATOR_STATE_FILE = Some (Json state) /\
  state_writes w' = state_writes w ++ [state] /\
  forall t,
    task_state t =
      JObj [ (py "id", JStr (agent_id t));
             (py "name", JStr (name t));
             (py "status", JStr (status_str (status t)));
             (py "started_at", json_of_option (started_at t));
             (py "ended_at", json_of_option (ended_at t));
             (py "result_snippet", JStr (take 200 (result t))) ] /\
    take 200 (result t) `prefix_of` result t /\
    length (take 200 (result t)) <= 200 /\
    (take 200 (result t) = result t <-> length (result t) <= 200) /\
    forall e, task_state (with_error e t) = task_state t.
Proof.
  intros w' state _. subst w' state. split_and!.
  - unfold save_state, write_state, write_text, read_clock.
    cbn [files]. apply lookup_insert_eq.
  - reflexivity.
  - intros t. split_and!.
    + unfold task_state. rewrite result_snippet_take. reflexivity.
    + apply prefix_take.
    + rewrite length_take. lia.
    + apply take_all_iff.
    + reflexivity.
Qed.

Lemma save_state_record_witness :
  let self :=
    mkOrchestrator (py "Review the login flow") 1 true (sample_uuid4 0)
      [with_result (py "ok")
         (AgentTask_init (sample_uuid4 1) (py "do it") (py "worker"))] in
  files (save_state sample_now self fresh_world) !! ORCHESTRATOR_STATE_FILE
    = Some (Json (state_record self (sample_now 0)
                               (task_state <$> tasks self))) /\
  length (take 200 (py "ok")) <= 200.
Proof.
  intros self.
  destruct (save_state_record sample_now self fresh_world
              ltac:(vm_compute; reflexivity))
    as (Hfile & _ & Htask).
  split; [exact Hfile |].
  destruct (Htask (with_result (py "ok")
                     (AgentTask_init (sample_uuid4 1) (py "do it")
                                     (py "worker"))))
    as (_ & _ & Hlen & _).
  exact Hlen.
Defined.

(** The main thread builds the snapshot one task per step; when no
    worker moves in between, it writes what [save_state] writes. *)
Section SaveStateSteps.

Variable uuid4 : nat -> str.
Variable now : nat -> str.
Variable claude_of : nat -> subprocess_run.

Lemma save_state_stepwise (m : nat) : forall st k timestamp entries,
  main st = MSaveState k timestamp entries ->
  entries = task_state <$> take (length entries) (tasks (orch st)) ->
  length entries + m = length (tasks (orch st)) ->
  exec uuid4 now claude_of (replicate (S m) (Main 0)) st =
  mkRun (orch st)
        (write_state
           (state_record (orch st) timestamp (task_state <$> tasks (orch st)))
           (world st))
        (match k with ThenSpawn => MSpawn | ThenAwait => MAwait end)
        (workers st) (yielded st).
Proof.
  induction m as [| m IH]; intros st k timestamp entries Hm Hentries Hlen.
  - cbn. unfold main_step. rewrite Hm.
    rewrite (lookup_ge_None_2 (tasks (orch st))) by lia.
    rewrite take_ge in Hentries by lia. rewrite <- Hentries. reflexivity.
  - destruct (lookup_lt_is_Some_2 (tasks (orch st)) (length entries))
      as [t Ht]; [lia |].
    change (exec uuid4 now claude_of (replicate (S (S m)) (Main 0)) st)
      with (exec uuid4 now claude_of (replicate (S m) (Main 0))
                 (main_step uuid4 now claude_of 0 st)).
    unfold main_step at 1. rewrite Hm, Ht.
    rewrite (IH _ k timestamp (entries ++ [task_state t])); try reflexivity.
    + cbn [orch]. rewrite length_app, Nat.add_1_r.
      rewrite (take_S_r _ _ t) by exact Ht.
      rewrite fmap_app, <- Hentries. reflexivity.
    + cbn [orch]. rewrite length_app. cbn. lia.
Qed.

Lemma save_state_refines (o : Orchestrator) (w : World) (k : after_save)
    (ws : list (list write)) (y : list nat) :
  world (exec uuid4 now claude_of
              (replicate (S (length (tasks o))) (Main 0))
              (mkRun o (read_clock now w).2
                     (MSaveState k (read_clock now w).1 []) ws y))
  = save_state now o w.
Proof.
  rewrite (save_state_stepwise (length (tasks o)) _ k
                               (now (clock_reads w)) []);
    reflexivity.
Qed.

End SaveStateSteps.

(** ** The synthesis report *)

Lemma report_file_of_inj (o1 o2 : Orchestrator) :
  report_file_of o1 = report_file_of o2 <->
  take 8 (session_id o1) = take 8 (session_id o2).
Proof.
  unfold report_file_of, joinpath. split.
  - intros Heq. apply app_inv_head in Heq. injection Heq as Heq.
    apply app_inv_tail in Heq. exact Heq.
  - intros ->. reflexivity.
Qed.

(** C7, as the code has it.  The report file is named after the first
    8 characters of the session id: two runs write to the same report
    file exactly when their session ids agree on their first 8
    characters. *)
Theorem report_file_by_prefix (o1 o2 : Orchestrator) :
  report_file_of o1 = report_file_of o2 <->
  take 8 (session_id o1) = take 8 (session_id o2).
Proof. apply report_file_of_inj. Qed.

(** C7 fails as worded: two distinct UUIDs with the same first group
    name the same report file. *)
Lemma report_file_shared_prefix :
  ~ report_path_as_specified
      (mkOrchestrator (py "a") 1 false
                      (py "3f2b8c1e-0000-4000-8000-000000000001") [])
      (mkOrchestrator (py "b") 1 false
                      (py "3f2b8c1e-ffff-4fff-bfff-fffffffffffe") []).
Proof.
  intros Hspec. apply Hspec; [discriminate |].
  apply report_file_of_inj. reflexivity.
Qed.

(** The later of two such runs replaces the report of the earlier. *)
Lemma report_overwritten (o1 o2 : Orchestrator) (w : World) :
  take 8 (session_id o1) = take 8 (session_id o2) ->
  files (synthesize o2 (synthesize o1 w).2).2 !! report_file_of o1 =
  files (synthesize o2 w).2 !! report_file_of o2.
Proof.
  intros Heq. apply report_file_of_inj in Heq.
  unfold synthesize, write_text. cbn [snd files].
  rewrite Heq, !lookup_insert_eq. reflexivity.
Qed.

Lemma report_kept (o1 o2 : Orchestrator) (w : World) :
  take 8 (session_id o1) <> take 8 (session_id o2) ->
  files (synthesize o2 w).2 !! report_file_of o1 = files w !! report_file_of o1.
Proof.
  intros Hne. unfold synthesize, write_text. cbn [snd files].
  apply lookup_insert_ne. intros Heq. apply Hne.
  symmetry. apply report_file_of_inj. exact Heq.
Qed.

Lemma report_loop (ts : list AgentTask) : forall acc : str,
  foldl (fun synthesis_content t => synthesis_content ++ report_section t)
        acc ts
  = acc ++ concat (report_section <$> ts).
Proof.
  induction ts as [| t ts IH]; intros acc; cbn.
  - rewrite app_nil_r. reflexivity.
  - rewrite IH, <- app_assoc. reflexivity.
Qed.

(** C9. [synthesize] leaves the orchestrator and with it every field
    of every task as it was.  The report is the header followed by one
    section per task, in the order of the task list; it is what the
    report file holds after the call when its text can be encoded (the
    call raises otherwise).  A section shows the task's name, the
    first 100 characters of its prompt, its status, and its full
    result text, or the placeholder when the result is empty. *)
Theorem synthesize_reads_only (self : Orchestrator) (w : World) :
  (synthesize self w).1 = self /\
  tasks (synthesize self w).1 = tasks self /\
  (encodable (report_header self ++ concat (report_section <$> tasks self))
     = true ->
   files (synthesize self w).2 !! report_file_of self =
     Some (Text (report_header self
                   ++ concat (report_section <$> tasks self)))) /\
  forall t,
    report_section t =
      py "### " ++ name t ++ nl
         ++ py "- **Task**: " ++ take 100 (prompt t) ++ py "..." ++ nl
         ++ py "- **Status**: " ++ status_str (status t) ++ nl
         ++ py "- **Key Findings**:" ++ nl ++ nl
         ++ (if decide (result t = []) then py "No output generated."
             else result t) ++ nl ++ nl
         ++ py "---" ++ nl ++ nl.
Proof.
  split_and!; try reflexivity.
  - intros _. unfold synthesize, write_text. cbn [snd files].
    rewrite lookup_insert_eq, report_loop. reflexivity.
  - intros t. unfold report_section.
    destruct (result t) as [| c r]; cbn; rewrite <- ?app_assoc; reflexivity.
Qed.

Lemma synthesize_reads_only_witness :
  let self :=
    mkOrchestrator (py "Review the login flow") 1 true (sample_uuid4 0)
      [with_result (py "ok")
         (AgentTask_init (sample_uuid4 1) (py "do it") (py "worker"))] in
  files (synthesize self fresh_world).2 !! report_file_of self =
    Some (Text (report_header self
                  ++ concat (report_section <$> tasks self))).
Proof.
  intros self.
  destruct (synthesize_reads_only self fresh_world) as (_ & _ & Hfile & _).
  apply Hfile. vm_compute. reflexivity.
Defined.

(** ** Snapshots and assignments *)

Lemma entry_terminal_task_state (t : AgentTask) :
  entry_terminal (task_state t) = terminal (status t).
Proof. unfold task_state. destruct (status t); reflexivity. Qed.

Lemma snapshot_entries_state_record o timestamp entries :
  snapshot_entries (state_record o timestamp entries) = entries.
Proof. reflexivity. Qed.

Lemma count_true_below (a : list bool) : forall b,
  below a b -> count_true a <= count_true b.
Proof.
  induction a as [| x a IH]; intros b Hab; cbn; [lia |].
  destruct b as [| y b].
  - destruct x; [specialize (Hab 0 eq_refl); discriminate |].
    cbn. apply (IH []). intros i Hi. specialize (Hab (S i) Hi). discriminate.
  - cbn. assert (count_true a <= count_true b) as Hle.
    { apply IH. intros i Hi. exact (Hab (S i) Hi). }
    destruct x; [| lia].
    specialize (Hab 0 eq_refl). injection Hab as ->. lia.
Qed.

Lemma nondecreasing_snoc (l : list nat) (c : nat) :
  nondecreasing l ->
  (forall b, last l = Some b -> b <= c) ->
  nondecreasing (l ++ [c]).
Proof.
  intros Hl Hlast i a b Ha Hb.
  destruct (decide (S i < length l)) as [Hlt | Hge].
  - rewrite lookup_app_l in Ha by lia. rewrite lookup_app_l in Hb by lia.
    exact (Hl i a b Ha Hb).
  - assert (i < length l) as Hi.
    { apply lookup_lt_Some in Hb. rewrite length_app in Hb. cbn in Hb. lia. }
    rewrite lookup_app_l in Ha by lia.
    rewrite lookup_app_r in Hb by lia.
    replace (S i - length l) with 0 in Hb by lia. injection Hb as <-.
    apply Hlast. rewrite last_lookup.
    replace (pred (length l)) with i by lia. exact Ha.
Qed.

Lemma runs_to_snoc t done t' timestamp op :
  runs_to t done t' ->
  runs_to t (done ++ [op]) (apply_write timestamp op t').
Proof.
  induction 1 as [t | t ts' op' done t' _ IH]; cbn.
  - eapply runs_cons. apply runs_nil.
  - eapply runs_cons. exact IH.
Qed.

(** The assignments of [execute_writes] are those of [execute]. *)
Lemma execute_writes_sound test_mode env self :
  runs_to self (execute_writes test_mode (claude env) self)
          (executed test_mode env self).
Proof.
  destruct test_mode.
  - rewrite executed_mock. cbn.
    apply (runs_cons _ []), (runs_cons _ (now_start env)), (runs_cons _ []),
      (runs_cons _ []), (runs_cons _ (now_end env)).
    apply runs_nil.
  - unfold execute_writes.
    destruct (claude env) as [e | e | rc stdout stderr] eqn:Hrun.
    + rewrite (executed_raised env self e) by auto. cbn.
      apply (runs_cons _ []), (runs_cons _ (now_start env)), (runs_cons _ []),
        (runs_cons _ []), (runs_cons _ (now_end env)).
      apply runs_nil.
    + rewrite (executed_raised env self e) by auto. cbn.
      apply (runs_cons _ []), (runs_cons _ (now_start env)), (runs_cons _ []),
        (runs_cons _ []), (runs_cons _ (now_end env)).
      apply runs_nil.
    + rewrite (executed_exited env self rc stdout stderr) by assumption.
      destruct (rc =? 0)%Z; cbn.
      * apply (runs_cons _ []), (runs_cons _ (now_start env)), (runs_cons _ []),
          (runs_cons _ []), (runs_cons _ (now_end env)).
        apply runs_nil.
      * apply (runs_cons _ []), (runs_cons _ (now_start env)), (runs_cons _ []),
          (runs_cons _ []), (runs_cons _ []), (runs_cons _ (now_end env)).
        apply runs_nil.
Qed.

Ltac invert_runs :=
  repeat match goal with
         | H : runs_to _ (_ :: _) _ |- _ => inversion H; clear H; subst
         | H : runs_to _ [] _ |- _ => inversion H; clear H; subst
         end;
  cbn [apply_write] in *.

(** A worker that made all its assignments leaves what [execute]
    leaves, for the clock readings it met. *)
Lemma execute_writes_complete test_mode c self self' :
  runs_to self (execute_writes test_mode c self) self' ->
  exists env, claude env = c /\ self' = executed test_mode env self.
Proof.
  intros Hruns. destruct test_mode.
  - cbn in Hruns. invert_runs.
    match goal with
    | |- context [with_ended_at ?e (_ (_ (with_started_at ?s _)))] =>
        exists (Build_Env s 0 c e)
    end.
    split; [reflexivity |]. rewrite executed_mock. reflexivity.
  - unfold execute_writes in Hruns.
    destruct c as [e | e | rc stdout stderr].
    + cbn in Hruns. invert_runs.
      match goal with
      | |- context [with_ended_at ?b (_ (_ (with_started_at ?s _)))] =>
          exists (Build_Env s 0 (LaunchError e) b)
      end.
      split; [reflexivity |].
      rewrite (executed_raised _ self e) by auto. reflexivity.
    + cbn in Hruns. invert_runs.
      match goal with
      | |- context [with_ended_at ?b (_ (_ (with_started_at ?s _)))] =>
          exists (Build_Env s 0 (CommunicateError e) b)
      end.
      split; [reflexivity |].
      rewrite (executed_raised _ self e) by auto. reflexivity.
    + destruct (rc =? 0)%Z eqn:Hrc; cbn in Hruns; invert_runs.
      * match goal with
        | |- context [with_ended_at ?b (_ (_ (with_started_at ?s _)))] =>
            exists (Build_Env s 0 (Exited rc stdout stderr) b)
        end.
        split; [reflexivity |].
        rewrite (executed_exited _ self rc stdout stderr) by reflexivity.
        rewrite Hrc. reflexivity.
      * match goal with
        | |- context [with_ended_at ?b (_ (_ (_ (with_started_at ?s _))))] =>
            exists (Build_Env s 0 (Exited rc stdout stderr) b)
        end.
        split; [reflexivity |].
        rewrite (executed_exited _ self rc stdout stderr) by reflexivity.
        rewrite Hrc. reflexivity.
Qed.

Lemma execute_writes_shape test_mode c self :
  exists rest,
    execute_writes test_mode c self = WStatus running :: rest /\
    Forall (fun op => keeps_terminal op = true) rest.
Proof.
  unfold execute_writes. eexists. split; [reflexivity |].
  destruct test_mode; [repeat constructor |].
  destruct c as [e | e | rc stdout stderr]; [repeat constructor .. |].
  destruct (rc =? 0)%Z; repeat constructor.
Qed.

Lemma apply_write_keeps_terminal timestamp op t :
  keeps_terminal op = true ->
  terminal (status t) = true ->
  terminal (status (apply_write timestamp op t)) = true.
Proof. destruct op; cbn; auto. Qed.

(** Once the task of a worker is terminal, the worker's next assignment
    leaves it terminal. *)
Lemma worker_keeps_terminal test_mode c t0 done op rest t timestamp :
  status t0 = pending ->
  execute_writes test_mode c t0 = done ++ op :: rest ->
  runs_to t0 done t ->
  terminal (status t) = true ->
  terminal (status (apply_write timestamp op t)) = true.
Proof.
  intros Hpending Hsplit Hruns Hterm.
  destruct done as [| d done].
  - inversion Hruns; subst. rewrite Hpending in Hterm. discriminate.
  - apply apply_write_keeps_terminal; [| exact Hterm].
    destruct (execute_writes_shape test_mode c t0) as (tl & Hshape & Hsafe).
    rewrite Hshape in Hsplit. cbn in Hsplit. injection Hsplit as _ ->.
    rewrite Forall_forall in Hsafe. apply Hsafe.
    apply elem_of_app. right. apply elem_of_cons. left. reflexivity.
Qed.

Lemma below_insert (a b : list bool) (i : nat) (x y : bool) :
  below a b ->
  b !! i = Some x ->
  (x = true -> y = true) ->
  below a (<[i := y]> b).
Proof.
  intros Hab Hi Hxy j Hj. specialize (Hab j Hj).
  destruct (decide (i = j)) as [-> | Hne].
  - rewrite Hab in Hi. injection Hi as <-.
    rewrite list_lookup_insert_eq; [| eapply lookup_lt_Some; eassumption].
    rewrite Hxy; reflexivity.
  - rewrite list_lookup_insert_ne by assumption. exact Hab.
Qed.

(** Distinct slots below [m], [m] of them: every slot is among them. *)
Lemma all_slots_yielded (y : list nat) (m : nat) :
  NoDup y -> (forall i, i ∈ y -> i < m) -> length y = m ->
  forall i, i < m -> i ∈ y.
Proof.
  intros Hnodup Hbound Hlen i Hi.
  assert (y ⊆+ seq 0 m) as Hsub.
  { apply NoDup_submseteq; [exact Hnodup |].
    intros j Hj. apply elem_of_seq. specialize (Hbound j Hj). lia. }
  assert (seq 0 m ≡ₚ y) as Hperm.
  { symmetry. apply submseteq_length_Permutation; [exact Hsub |].
    rewrite length_seq. lia. }
  rewrite <- Hperm. apply elem_of_seq. lia.
Qed.

(** ** The invariant of a run *)

Section InvariantProofs.

Variable uuid4 : nat -> str.
Variable now : nat -> str.
Variable claude_of : nat -> subprocess_run.
Variable P : str.
Variable n : Z.
Variable tm : bool.

Local Abbreviation T0' := (T0 uuid4 P n).
Local Abbreviation Inv' := (Inv uuid4 claude_of P n tm).
Local Abbreviation worker_step' := (worker_step now).
Local Abbreviation main_step' := (main_step uuid4 now claude_of).
Local Abbreviation step' := (step uuid4 now claude_of).
Local Abbreviation exec' := (exec uuid4 now claude_of).
Local Abbreviation start' := (start uuid4).
Local Abbreviation run' := (run uuid4 now claude_of).

Lemma T0_pending i t0 : T0' !! i = Some t0 -> status t0 = pending.
Proof.
  unfold T0. rewrite list_lookup_fmap.
  destruct (seq 0 (Z.to_nat n) !! i); cbn; [| discriminate].
  intros [= <-]. reflexivity.
Qed.

Lemma Inv_start : Inv' (start' P n tm).
Proof.
  constructor; cbn; try reflexivity; try discriminate; try (intros; discriminate);
    try (intros; congruence); auto.
  all: try (split; [constructor | intros i Hi; inversion Hi]).
  all: try (intros p [x Hx]; rewrite lookup_empty in Hx; discriminate).
  all: try (intros i a b Ha; discriminate).
Qed.

(** Before the pool starts and after it is drained, a worker step
    changes nothing. *)
Lemma worker_step_idle i st :
  Inv' st -> spawned (main st) = false -> worker_step' i st = st.
Proof.
  intros HI Hidle. unfold worker_step.
  destruct (inv_idle _ _ _ _ _ _ HI Hidle) as [-> _]. reflexivity.
Qed.

Lemma workers_done st :
  Inv' st -> drained (main st) = true ->
  forall i, i < length T0' -> workers st !! i = Some [].
Proof.
  intros HI Hdrained i Hi.
  destruct (inv_yielded _ _ _ _ _ _ HI) as [Hnodup Hdone].
  assert (spawned (main st) = true) as Hsp by (destruct (main st); done).
  destruct (inv_flight _ _ _ _ _ _ HI Hsp) as (_ & _ & Hlen & _).
  apply Hdone.
  apply (all_slots_yielded (yielded st) (length T0')); try assumption.
  - intros j Hj. apply Hdone in Hj. apply lookup_lt_Some in Hj. lia.
  - apply (inv_drained _ _ _ _ _ _ HI Hdrained).
Qed.

Lemma worker_step_drained i st :
  Inv' st -> drained (main st) = true -> worker_step' i st = st.
Proof.
  intros HI Hdrained. unfold worker_step.
  destruct (workers st !! i) as [[| op rest] |] eqn:Hw; try reflexivity.
  assert (i < length T0') as Hi.
  { assert (spawned (main st) = true) as Hsp by (destruct (main st); done).
    destruct (inv_flight _ _ _ _ _ _ HI Hsp) as (_ & _ & Hlen & _).
    apply lookup_lt_Some in Hw. lia. }
  rewrite (workers_done st HI Hdrained i Hi) in Hw. discriminate.
Qed.

Lemma task_flags_insert st i t w pc ws y :
  task_flags
    (mkRun (with_tasks (<[i := t]> (tasks (orch st))) (orch st)) w pc ws y)
  = <[i := terminal (status t)]> (task_flags st).
Proof.
  unfold task_flags. cbn.
  apply (list_fmap_insert (fun t => terminal (status t))).
Qed.

Lemma Inv_worker_step i st : Inv' st -> Inv' (worker_step' i st).
Proof.
  intros HI.
  destruct (spawned (main st)) eqn:Hsp;
    [| rewrite worker_step_idle by assumption; exact HI].
  destruct (drained (main st)) eqn:Hdr;
    [rewrite worker_step_drained by assumption; exact HI |].
  unfold worker_step.
  destruct (workers st !! i) as [[| op rest] |] eqn:Hw; try exact HI.
  destruct (tasks (orch st) !! i) as [t |] eqn:Ht; try exact HI.
  destruct (inv_flight _ _ _ _ _ _ HI Hsp) as (Hn & Hlt & Hlw & Hfl).
  destruct (T0' !! i) as [t0 |] eqn:Ht0;
    [| apply lookup_ge_None in Ht0; apply lookup_lt_Some in Ht; lia].
  destruct (Hfl i t0 t _ Ht0 Ht Hw) as (done & Hsplit & Hruns).
  set (stamped := if reads_clock op then read_clock now (world st)
                  else ([], world st)).
  assert (files stamped.2 = files (world st)
          /\ state_writes stamped.2 = state_writes (world st)) as [Hf Hs].
  { subst stamped. destruct (reads_clock op); split; reflexivity. }
  destruct stamped as [timestamp w']. cbn in Hf, Hs.
  assert (forall flags, below flags (task_flags st) ->
            below flags (<[i := terminal (status (apply_write timestamp op t))]>
                           (task_flags st))) as Hbelow.
  { intros flags Hb.
    eapply below_insert; [exact Hb | |].
    - unfold task_flags. rewrite list_lookup_fmap, Ht. reflexivity.
    - eapply worker_keeps_terminal; eauto using T0_pending. }
  constructor; cbn [orch world main workers yielded].
  - apply HI.
  - apply HI.
  - apply HI.
  - apply HI.
  - intros Hm. rewrite Hm in Hsp. discriminate.
  - intros _ Hx. rewrite Hsp in Hx. discriminate.
  - intros Hx. rewrite Hsp in Hx. discriminate.
  - intros _. split_and!; [exact Hn | | |].
    + cbn. rewrite length_insert. exact Hlt.
    + rewrite length_insert. exact Hlw.
    + intros j t0' t' ws' Hj0 Hj Hjw. cbn in Hj.
      destruct (decide (i = j)) as [<- | Hne].
      * rewrite list_lookup_insert_eq in Hj by (eapply lookup_lt_Some; eauto).
        rewrite list_lookup_insert_eq in Hjw by (eapply lookup_lt_Some; eauto).
        injection Hj as <-. injection Hjw as <-.
        rewrite Ht0 in Hj0. injection Hj0 as <-.
        exists (done ++ [op]). split.
        -- rewrite Hsplit, <- app_assoc. reflexivity.
        -- apply runs_to_snoc. exact Hruns.
      * rewrite list_lookup_insert_ne in Hj by assumption.
        rewrite list_lookup_insert_ne in Hjw by assumption.
        eauto.
  - destruct (inv_yielded _ _ _ _ _ _ HI) as [Hnodup Hdone].
    split; [exact Hnodup |]. intros j Hj. specialize (Hdone j Hj).
    destruct (decide (i = j)) as [<- | Hne]; [congruence |].
    rewrite list_lookup_insert_ne by assumption. exact Hdone.
  - intros Hd. rewrite Hdr in Hd. discriminate.
  - intros e Hm. rewrite Hm in Hsp. discriminate.
  - intros p. rewrite Hf. intros Hp.
    destruct (inv_files _ _ _ _ _ _ HI p Hp) as [-> | [Hd _]]; [left; reflexivity |].
    rewrite Hd in Hdr. discriminate.
  - intros Hd. rewrite Hd in Hdr. discriminate.
  - rewrite Hs. apply HI.
  - rewrite Hs. intros state Hlast.
    rewrite task_flags_insert. apply Hbelow.
    exact (inv_last _ _ _ _ _ _ HI state Hlast).
  - intros k timestamp' entries Hm.
    destruct (inv_saving _ _ _ _ _ _ HI k timestamp' entries Hm) as [Hb Hl].
    split.
    + rewrite task_flags_insert. apply Hbelow. exact Hb.
    + rewrite Hs. exact Hl.
Qed.

Lemma main_step_start pick st :
  Inv' st -> main st = MStart ->
  main_step' pick st =
  mkRun (with_tasks T0' (orch st))
        (mkWorld (files (world st)) (1 + Z.to_nat n)
                 (S (clock_reads (world st))) (state_writes (world st)))
        (MSaveState ThenSpawn (now (clock_reads (world st))) [])
        (workers st) (yielded st).
Proof.
  intros HI Hm.
  destruct (inv_start _ _ _ _ _ _ HI Hm) as (Htasks & _ & Hdraws).
  unfold main_step, ensure_dirs. rewrite Hm, initialize_tasks_eq.
  rewrite Htasks, Hdraws, (inv_prompt _ _ _ _ _ _ HI), (inv_count _ _ _ _ _ _ HI).
  reflexivity.
Qed.

Lemma Inv_main_start pick st :
  Inv' st -> main st = MStart -> Inv' (main_step' pick st).
Proof.
  intros HI Hm. rewrite main_step_start by assumption.
  assert (spawned (main st) = false) as Hsp by (rewrite Hm; reflexivity).
  destruct (inv_start _ _ _ _ _ _ HI Hm) as (Htasks & Hwrites & Hdraws).
  constructor; cbn [orch world main workers yielded files state_writes
                    spawned drained].
  - apply HI.
  - apply HI.
  - apply HI.
  - apply HI.
  - discriminate.
  - reflexivity.
  - intros _. exact (inv_idle _ _ _ _ _ _ HI Hsp).
  - discriminate.
  - apply HI.
  - discriminate.
  - discriminate.
  - intros p Hp.
    destruct (inv_files _ _ _ _ _ _ HI p Hp) as [-> | [Hd _]]; [left; reflexivity |].
    congruence.
  - discriminate.
  - apply HI.
  - rewrite Hwrites. discriminate.
  - intros k timestamp entries [= <- <- <-]. split.
    + intros i Hi. discriminate.
    + intros state i _ Hi. cbn in Hi. lia.
Qed.

Lemma Inv_main_save_entry st k timestamp entries t :
  Inv' st -> main st = MSaveState k timestamp entries ->
  tasks (orch st) !! length entries = Some t ->
  Inv' (mkRun (orch st) (world st)
             (MSaveState k timestamp (entries ++ [task_state t]))
             (workers st) (yielded st)).
Proof.
  intros HI Hm Ht.
  assert (forall x, spawned (MSaveState k timestamp x) = spawned (main st))
    as Hsp by (intros x; rewrite Hm; destruct k; reflexivity).
  assert (main st <> MStart) as Hns by (rewrite Hm; discriminate).
  destruct (inv_saving _ _ _ _ _ _ HI k timestamp entries Hm) as [Hb Hl].
  assert (task_flags st !! length entries = Some (terminal (status t))) as Hflag.
  { unfold task_flags. rewrite list_lookup_fmap, Ht. reflexivity. }
  constructor; cbn [orch world main workers yielded drained].
  - apply HI.
  - apply HI.
  - apply HI.
  - apply HI.
  - discriminate.
  - intros _. rewrite Hsp. apply HI. exact Hns.
  - rewrite Hsp. apply HI.
  - rewrite Hsp. apply HI.
  - apply HI.
  - discriminate.
  - discriminate.
  - intros p Hp.
    destruct (inv_files _ _ _ _ _ _ HI p Hp) as [-> | [Hd _]]; [left; reflexivity |].
    congruence.
  - discriminate.
  - apply HI.
  - exact (inv_last _ _ _ _ _ _ HI).
  - intros k' timestamp' entries' [= <- <- <-]. split.
    + intros i Hi. rewrite fmap_app in Hi.
      destruct (decide (i < length entries)) as [Hlt | Hge].
      * rewrite lookup_app_l in Hi by (rewrite length_fmap; exact Hlt).
        exact (Hb i Hi).
      * rewrite lookup_app_r in Hi by (rewrite length_fmap; lia).
        rewrite length_fmap in Hi.
        destruct (i - length entries) as [| d] eqn:Hd; [| discriminate].
        change (Some (entry_terminal (task_state t)) = Some true) in Hi.
        rewrite entry_terminal_task_state in Hi.
        replace i with (length entries) by lia.
        rewrite <- Hi. exact Hflag.
    + intros state i Hlast Hi Hstate.
      rewrite length_app in Hi. cbn in Hi. rewrite fmap_app.
      destruct (decide (i < length entries)) as [Hlt | Hge].
      * rewrite lookup_app_l by (rewrite length_fmap; exact Hlt).
        exact (Hl state i Hlast Hlt Hstate).
      * assert (i = length entries) as -> by lia.
        rewrite lookup_app_r by (rewrite length_fmap; lia).
        rewrite length_fmap, Nat.sub_diag.
        change (Some (entry_terminal (task_state t)) = Some true).
        rewrite entry_terminal_task_state. f_equal.
        pose proof (inv_last _ _ _ _ _ _ HI state Hlast _ Hstate) as Hcur.
        unfold task_flags in Hcur, Hflag. cbn in Hcur.
        rewrite Hflag in Hcur. injection Hcur as ->. reflexivity.
Qed.

Lemma Inv_main_save_write st k timestamp entries :
  Inv' st -> main st = MSaveState k timestamp entries ->
  tasks (orch st) !! length entries = None ->
  Inv' (mkRun (orch st)
             (write_state (state_record (orch st) timestamp entries) (world st))
             (match k with ThenSpawn => MSpawn | ThenAwait => MAwait end)
             (workers st) (yielded st)).
Proof.
  intros HI Hm Hnone.
  set (pc := match k with ThenSpawn => MSpawn | ThenAwait => MAwait end).
  assert (spawned pc = spawned (main st)) as Hsp
    by (rewrite Hm; destruct k; reflexivity).
  assert (main st <> MStart) as Hns by (rewrite Hm; discriminate).
  destruct (inv_saving _ _ _ _ _ _ HI k timestamp entries Hm) as [Hb Hl].
  apply lookup_ge_None in Hnone.
  constructor; cbn [orch world main workers yielded].
  - apply HI.
  - apply HI.
  - apply HI.
  - apply HI.
  - intros Hx. destruct k; discriminate.
  - intros _. rewrite Hsp. apply HI. exact Hns.
  - rewrite Hsp. apply HI.
  - rewrite Hsp. apply HI.
  - apply HI.
  - intros Hx. destruct k; discriminate.
  - intros e Hx. destruct k; discriminate.
  - intros p Hp. left. unfold write_state, write_text in Hp. cbn in Hp.
    apply lookup_insert_is_Some in Hp as [<- | [_ Hp]]; [reflexivity |].
    destruct (inv_files _ _ _ _ _ _ HI p Hp) as [-> | [Hd _]]; [reflexivity |].
    congruence.
  - intros Hx. destruct k; discriminate.
  - unfold write_state. cbn. rewrite fmap_app.
    apply nondecreasing_snoc; [apply HI |].
    intros b Hlast. rewrite fmap_last in Hlast.
    destruct (last (state_writes (world st))) as [state |] eqn:Hstate;
      [| discriminate].
    injection Hlast as <-.
    unfold terminal_count. apply count_true_below.
    intros i Hi. apply (Hl state i eq_refl); [| exact Hi].
    pose proof (inv_last _ _ _ _ _ _ HI state Hstate i Hi) as Hcur.
    apply lookup_lt_Some in Hcur. unfold task_flags in Hcur.
    rewrite length_fmap in Hcur. lia.
  - unfold write_state. cbn. intros state Hlast.
    rewrite last_snoc in Hlast. injection Hlast as <-. exact Hb.
  - intros k' timestamp' entries' Hx. destruct k; discriminate.
Qed.

Lemma Inv_main_spawn pick st :
  Inv' st -> main st = MSpawn -> Inv' (main_step' pick st).
Proof.
  intros HI Hm. unfold main_step. rewrite Hm.
  assert (spawned (main st) = false) as Hsp by (rewrite Hm; reflexivity).
  assert (main st <> MStart) as Hns by (rewrite Hm; discriminate).
  pose proof (inv_derived _ _ _ _ _ _ HI Hns Hsp) as Htasks.
  pose proof (inv_count _ _ _ _ _ _ HI) as Hcount.
  assert (forall p, is_Some (files (world st) !! p) ->
                    p = ORCHESTRATOR_STATE_FILE) as Hfiles.
  { intros p Hp.
    destruct (inv_files _ _ _ _ _ _ HI p Hp) as [-> | [Hd _]]; [reflexivity |].
    congruence. }
  destruct (agent_count (orch st) <=? 0)%Z eqn:Hle.
  - apply Z.leb_le in Hle.
    constructor; cbn [orch world main workers yielded spawned drained].
    + apply HI.
    + apply HI.
    + apply HI.
    + apply HI.
    + discriminate.
    + intros _ _. exact Htasks.
    + intros _. exact (inv_idle _ _ _ _ _ _ HI Hsp).
    + discriminate.
    + apply HI.
    + discriminate.
    + intros e [= <-]. split; [reflexivity | lia].
    + intros p Hp. left. exact (Hfiles p Hp).
    + discriminate.
    + apply HI.
    + exact (inv_last _ _ _ _ _ _ HI).
    + discriminate.
  - apply Z.leb_gt in Hle.
    constructor; cbn [orch world main workers yielded spawned drained].
    + apply HI.
    + apply HI.
    + apply HI.
    + apply HI.
    + discriminate.
    + discriminate.
    + discriminate.
    + intros _. split_and!.
      * lia.
      * rewrite Htasks. reflexivity.
      * rewrite length_imap, Htasks. reflexivity.
      * intros i t0 t ws Ht0 Ht Hw.
        rewrite Htasks, Ht0 in Ht. injection Ht as <-.
        rewrite list_lookup_imap, Htasks, Ht0 in Hw. cbn in Hw.
        injection Hw as <-. exists [].
        rewrite (inv_mode _ _ _ _ _ _ HI).
        split; [reflexivity | apply runs_nil].
    + split; [constructor |]. intros i Hi. inversion Hi.
    + discriminate.
    + discriminate.
    + intros p Hp. left. exact (Hfiles p Hp).
    + discriminate.
    + apply HI.
    + exact (inv_last _ _ _ _ _ _ HI).
    + discriminate.
Qed.

Lemma Inv_main_await pick st :
  Inv' st -> main st = MAwait -> Inv' (main_step' pick st).
Proof.
  intros HI Hm. unfold main_step. rewrite Hm.
  assert (spawned (main st) = true) as Hsp by (rewrite Hm; reflexivity).
  pose proof (inv_flight _ _ _ _ _ _ HI Hsp) as Hflight.
  destruct (inv_yielded _ _ _ _ _ _ HI) as [Hnodup Hdone].
  assert (forall p, is_Some (files (world st) !! p) ->
                    p = ORCHESTRATOR_STATE_FILE) as Hfiles.
  { intros p Hp.
    destruct (inv_files _ _ _ _ _ _ HI p Hp) as [-> | [Hd _]]; [reflexivity |].
    congruence. }
  destruct (decide (length (yielded st) = length (tasks (orch st))))
    as [Hall | Hmore].
  - constructor; cbn [orch world main workers yielded spawned drained].
    + apply HI.
    + apply HI.
    + apply HI.
    + apply HI.
    + discriminate.
    + discriminate.
    + discriminate.
    + intros _. exact Hflight.
    + apply HI.
    + intros _. rewrite Hall. apply Hflight.
    + discriminate.
    + intros p Hp. left. exact (Hfiles p Hp).
    + discriminate.
    + apply HI.
    + exact (inv_last _ _ _ _ _ _ HI).
    + discriminate.
  - destruct (decide (workers st !! pick = Some [] /\ pick ∉ yielded st))
      as [[Hpick Hnew] |]; [| exact HI].
    constructor; cbn [orch world main workers yielded spawned drained
                      read_clock files state_writes].
    + apply HI.
    + apply HI.
    + apply HI.
    + apply HI.
    + discriminate.
    + discriminate.
    + discriminate.
    + intros _. exact Hflight.
    + split.
      * apply NoDup_app. split_and!; [exact Hnodup | | apply NoDup_singleton].
        intros x Hx Hx'. apply list_elem_of_singleton in Hx'. subst x.
        contradiction.
      * intros i Hi. apply elem_of_app in Hi as [Hi | Hi]; [auto |].
        apply list_elem_of_singleton in Hi. subst i. exact Hpick.
    + discriminate.
    + discriminate.
    + intros p Hp. left. exact (Hfiles p Hp).
    + discriminate.
    + apply HI.
    + exact (inv_last _ _ _ _ _ _ HI).
    + intros k timestamp entries [= <- <- <-]. split.
      * intros i Hi. discriminate.
      * intros state i _ Hi. cbn in Hi. lia.
Qed.

Lemma Inv_main_synthesize pick st :
  Inv' st -> main st = MSynthesize -> Inv' (main_step' pick st).
Proof.
  intros HI Hm. unfold main_step. rewrite Hm.
  assert (spawned (main st) = true) as Hsp by (rewrite Hm; reflexivity).
  assert (drained (main st) = true) as Hdr by (rewrite Hm; reflexivity).
  unfold synthesize, write_text.
  constructor; cbn [orch world main workers yielded spawned drained
                    files state_writes].
  - apply HI.
  - apply HI.
  - apply HI.
  - apply HI.
  - discriminate.
  - discriminate.
  - discriminate.
  - intros _. exact (inv_flight _ _ _ _ _ _ HI Hsp).
  - apply HI.
  - intros _. exact (inv_drained _ _ _ _ _ _ HI Hdr).
  - discriminate.
  - intros p Hp.
    apply lookup_insert_is_Some in Hp as [<- | [_ Hp]]; [right; auto |].
    destruct (inv_files _ _ _ _ _ _ HI p Hp) as [-> | [Hd _]]; [left; reflexivity |].
    congruence.
  - intros _. rewrite lookup_insert_eq, report_loop. reflexivity.
  - apply HI.
  - exact (inv_last _ _ _ _ _ _ HI).
  - discriminate.
Qed.

Lemma Inv_main_step pick st : Inv' st -> Inv' (main_step' pick st).
Proof.
  intros HI. destruct (main st) as [| k timestamp entries | | | | | e] eqn:Hm.
  - apply Inv_main_start; assumption.
  - unfold main_step. rewrite Hm.
    destruct (tasks (orch st) !! length entries) as [t |] eqn:Ht.
    + apply Inv_main_save_entry; assumption.
    + apply Inv_main_save_write; assumption.
  - apply Inv_main_spawn; assumption.
  - apply Inv_main_await; assumption.
  - apply Inv_main_synthesize; assumption.
  - unfold main_step. rewrite Hm. exact HI.
  - unfold main_step. rewrite Hm. exact HI.
Qed.

Lemma Inv_exec schedule : forall st, Inv' st -> Inv' (exec' schedule st).
Proof.
  induction schedule as [| ev schedule IH]; intros st HI; [exact HI |].
  cbn. apply IH. destruct ev as [pick | i]; cbn.
  - apply Inv_main_step. exact HI.
  - apply Inv_worker_step. exact HI.
Qed.

(** Every state of a run satisfies the invariant. *)
Lemma Inv_run schedule : Inv' (run' P n tm schedule).
Proof. apply Inv_exec, Inv_start. Qed.

(** When [run] has returned, every task is what [execute] left of the
    task derived for its slot, and the report of these tasks is on
    disk. *)
Lemma run_done schedule :
  let st := run' P n tm schedule in
  main st = MDone ->
  (0 < n)%Z /\ length (tasks (orch st)) = length T0' /\
  (forall i t0, T0' !! i = Some t0 ->
     exists env, claude env = claude_of i /\
                 tasks (orch st) !! i = Some (executed tm env t0)) /\
  files (world st) !! report_file_of (orch st)
    = Some (Text (report_of (orch st))).
Proof.
  intros st Hm. pose proof (Inv_run schedule) as HI. fold st in HI.
  assert (spawned (main st) = true) as Hsp by (rewrite Hm; reflexivity).
  assert (drained (main st) = true) as Hdr by (rewrite Hm; reflexivity).
  destruct (inv_flight _ _ _ _ _ _ HI Hsp) as (Hn & Hlt & Hlw & Hfl).
  split_and!; try assumption.
  - intros i t0 Ht0.
    assert (i < length T0') as Hi by (eapply lookup_lt_Some; eassumption).
    destruct (lookup_lt_is_Some_2 (tasks (orch st)) i) as [t Ht]; [lia |].
    pose proof (workers_done st HI Hdr i Hi) as Hw.
    destruct (Hfl i t0 t [] Ht0 Ht Hw) as (done & Hsplit & Hruns).
    rewrite app_nil_r in Hsplit. subst done.
    apply execute_writes_complete in Hruns as (env & Henv & ->).
    exists env. split; [exact Henv | exact Ht].
  - apply (inv_report _ _ _ _ _ _ HI Hm).
Qed.

Lemma report_file_not_state_file o : report_file_of o <> ORCHESTRATOR_STATE_FILE.
Proof. intros Heq. apply (f_equal length) in Heq. discriminate. Qed.

(** Until [run] has returned there is no report. *)
Lemma run_no_report_yet schedule :
  let st := run' P n tm schedule in
  main st <> MDone -> files (world st) !! report_file_of (orch st) = None.
Proof.
  intros st Hm. pose proof (Inv_run schedule) as HI. fold st in HI.
  apply eq_None_not_Some. intros Hp.
  destruct (inv_files _ _ _ _ _ _ HI _ Hp) as [Heq | [Hd _]].
  - exact (report_file_not_state_file _ Heq).
  - contradiction.
Qed.

(** With no worker to start, the main thread goes from stage to stage
    and stops at the pool's constructor. *)
Lemma stage_main_step pick st :
  Inv' st -> (n <= 0)%Z ->
  stage (main (main_step' pick st)) = Nat.min 3 (S (stage (main st))).
Proof.
  intros HI Hn.
  assert (spawned (main st) = false) as Hsp.
  { destruct (spawned (main st)) eqn:Hsp; [| reflexivity].
    destruct (inv_flight _ _ _ _ _ _ HI Hsp) as (Hpos & _). lia. }
  assert (T0' = []) as HT0.
  { unfold T0. replace (Z.to_nat n) with 0 by lia. reflexivity. }
  destruct (main st) as [| k timestamp entries | | | | | e] eqn:Hm;
    try discriminate.
  - rewrite main_step_start by assumption. reflexivity.
  - destruct k; [| discriminate].
    unfold main_step. rewrite Hm.
    rewrite (inv_derived _ _ _ _ _ _ HI) by (rewrite Hm; done).
    rewrite HT0. reflexivity.
  - unfold main_step. rewrite Hm.
    rewrite (inv_count _ _ _ _ _ _ HI).
    destruct (n <=? 0)%Z eqn:Hle; [reflexivity |].
    apply Z.leb_gt in Hle. lia.
  - unfold main_step. rewrite Hm. cbn. rewrite Hm. reflexivity.
Qed.

Lemma stage_exec schedule : forall st,
  Inv' st -> (n <= 0)%Z -> stage (main st) <= 3 ->
  stage (main (exec' schedule st))
    = Nat.min 3 (stage (main st) + main_moves schedule).
Proof.
  induction schedule as [| ev schedule IH]; intros st HI Hn Hst.
  - unfold exec. cbn [foldl main_moves]. lia.
  - change (exec' (ev :: schedule) st) with (exec' schedule (step' st ev)).
    destruct ev as [pick | i]; cbn [step main_moves].
    + rewrite IH; [| apply Inv_main_step; exact HI | exact Hn |].
      * rewrite stage_main_step by assumption. lia.
      * rewrite stage_main_step by assumption. lia.
    + rewrite worker_step_idle; [| exact HI |].
      * rewrite IH by assumption. reflexivity.
      * destruct (main st) as [| [] ? ? | | | | |]; cbn in *; try reflexivity; lia.
Qed.

End InvariantProofs.

(** ** Orchestrator.run *)

(** C5. In every run, under every schedule, the snapshots written so
    far never go down in the number of tasks they record with a
    terminal status. *)
Theorem snapshots_monotone (uuid4 now : nat -> str)
    (claude_of : nat -> subprocess_run) (main_prompt : str) (agent_count : Z)
    (test_mode : bool) (schedule : list event) :
  nondecreasing
    (terminal_count
       <$> state_writes
             (world (run uuid4 now claude_of main_prompt agent_count test_mode
                         schedule))).
Proof.
  exact (inv_mono _ _ _ _ _ _
           (Inv_run uuid4 now claude_of main_prompt agent_count test_mode
                    schedule)).
Qed.

(** The snapshots of the sample run: the initial one, one taken while
    the other worker is still running, and the last one. *)
Example sample_snapshot_counts :
  terminal_count
    <$> state_writes
          (world (run sample_uuid4 sample_now sample_claude_of (py "x") 2 true
                      sample_schedule))
  = [0; 1; 2].
Proof. vm_compute. reflexivity. Qed.

(** C4, on the code.  With a worker count of 0 the run never returns:
    once the initial snapshot is written (three moves of the main
    thread), [ThreadPoolExecutor(max_workers=0)] raises [ValueError]
    out of [run]; the task list is empty and no report is ever
    written. *)
Theorem run_zero_agents_raises (uuid4 now : nat -> str)
    (claude_of : nat -> subprocess_run) (main_prompt : str) (test_mode : bool)
    (schedule : list event) :
  let st := run uuid4 now claude_of main_prompt 0 test_mode schedule in
  raised_with max_workers_error (main st) = (3 <=? main_moves schedule) /\
  main st <> MDone /\
  tasks (orch st) = [] /\
  files (world st) !! report_file_of (orch st) = None.
Proof.
  intros st.
  pose proof (Inv_run uuid4 now claude_of main_prompt 0 test_mode schedule)
    as HI. fold st in HI.
  pose proof (stage_exec uuid4 now claude_of main_prompt 0 test_mode schedule
                _ (Inv_start uuid4 claude_of main_prompt 0 test_mode)
                ltac:(lia) ltac:(cbn; lia)) as Hstage.
  change (stage (main st) = Nat.min 3 (0 + main_moves schedule)) in Hstage.
  assert (main st <> MDone) as Hnd.
  { intros Hd. rewrite Hd in Hstage. cbn [stage] in Hstage. lia. }
  split_and!.
  - destruct (3 <=? main_moves schedule) eqn:Hmoves.
    + apply Nat.leb_le in Hmoves.
      destruct (main st) as [| [] ? ? | | | | | e] eqn:Hm; cbn [stage] in Hstage; try lia.
      destruct (inv_raised _ _ _ _ _ _ HI e Hm) as [-> _].
      cbn. apply bool_decide_eq_true. reflexivity.
    + apply Nat.leb_gt in Hmoves.
      destruct (main st) as [| [] ? ? | | | | | e]; cbn [stage] in Hstage;
        try reflexivity; lia.
  - exact Hnd.
  - destruct (main st) as [| [] ? ? | | | | |] eqn:Hm; cbn [stage] in Hstage;
      try lia.
    + apply (inv_start _ _ _ _ _ _ HI Hm).
    + rewrite (inv_derived _ _ _ _ _ _ HI) by (rewrite Hm; done). reflexivity.
    + rewrite (inv_derived _ _ _ _ _ _ HI) by (rewrite Hm; done). reflexivity.
    + rewrite (inv_derived _ _ _ _ _ _ HI) by (rewrite Hm; done). reflexivity.
  - apply run_no_report_yet. exact Hnd.
Qed.

(** The failing input of C4, evaluated: [--agents 0] leaves one
    snapshot without task entries and the [ValueError]. *)
Example sample_zero_agents :
  let st := run sample_uuid4 sample_now sample_claude_of (py "x") 0 true
                (replicate 3 (Main 0)) in
  main st = MRaised max_workers_error /\
  snapshot_entries <$> state_writes (world st) = [[]] /\
  files (world st) !! report_file_of (orch st) = None.
Proof. vm_compute. auto. Qed.

(** C8, as the code has it.  For the objective "Review the login
    flow", two agents and mock mode, a run that has returned has
    exactly two tasks, derived from role-table entries 0 and 1; both
    are [completed]; the report holds the header and their two
    sections.  The mock result of a task quotes the first 30
    characters of the task's own prompt, which are "Use the
    security-auditor agent" and "Use the backend-specialist age": it
    does not mention the login flow. *)
Theorem login_flow_run (uuid4 now : nat -> str)
    (claude_of : nat -> subprocess_run) (schedule : list event) :
  let st := run uuid4 now claude_of (py "Review the login flow") 2 true
                schedule in
  main st = MDone ->
  exists t0 t1,
    tasks (orch st) = [t0; t1] /\
    name t0 = py "security-auditor" /\
    name t1 = py "backend-specialist" /\
    prompt t0 = sub_prompt_of (agent_map !!! 0) (py "Review the login flow") /\
    prompt t1 = sub_prompt_of (agent_map !!! 1) (py "Review the login flow") /\
    status t0 = completed /\
    status t1 = completed /\
    result t0 = py "MOCK RESULT for security-auditor: Analyzed Use the security-auditor agent... found 3 issues." /\
    result t1 = py "MOCK RESULT for backend-specialist: Analyzed Use the backend-specialist age... found 3 issues." /\
    contains (py "login flow") (result t0) = false /\
    contains (py "login flow") (result t1) = false /\
    files (world st) !! report_file_of (orch st)
      = Some (Text (report_header (orch st)
                      ++ report_section t0 ++ report_section t1)).
Proof.
  intros st Hm.
  destruct (run_done uuid4 now claude_of (py "Review the login flow") 2 true
                     schedule Hm) as (_ & Hlen & Htasks & Hreport).
  fold st in Hlen, Htasks, Hreport.
  destruct (Htasks 0 _ eq_refl) as (env0 & _ & H0).
  destruct (Htasks 1 _ eq_refl) as (env1 & _ & H1).
  unfold report_of in Hreport.
  destruct (tasks (orch st)) as [| t0 [| t1 [| t2 ts]]]; try discriminate.
  injection H0 as ->. injection H1 as ->.
  eexists _, _. split; [reflexivity |].
  rewrite !executed_mock.
  split_and!; try reflexivity.
  rewrite Hreport. cbn [fmap list_fmap concat]. rewrite app_nil_r. reflexivity.
Qed.

Lemma sample_run_returns :
  main (run sample_uuid4 sample_now sample_claude_of
            (py "Review the login flow") 2 true sample_schedule) = MDone.
Proof. vm_compute. reflexivity. Qed.

Lemma login_flow_run_witness :
  let st := run sample_uuid4 sample_now sample_claude_of
                (py "Review the login flow") 2 true sample_schedule in
  exists t0 t1,
    tasks (orch st) = [t0; t1] /\
    name t0 = py "security-auditor" /\
    name t1 = py "backend-specialist" /\
    prompt t0 = sub_prompt_of (agent_map !!! 0) (py "Review the login flow") /\
    prompt t1 = sub_prompt_of (agent_map !!! 1) (py "Review the login flow") /\
    status t0 = completed /\
    status t1 = completed /\
    result t0 = py "MOCK RESULT for security-auditor: Analyzed Use the security-auditor agent... found 3 issues." /\
    result t1 = py "MOCK RESULT for backend-specialist: Analyzed Use the backend-specialist age... found 3 issues." /\
    contains (py "login flow") (result t0) = false /\
    contains (py "login flow") (result t1) = false /\
    files (world st) !! report_file_of (orch st)
      = Some (Text (report_header (orch st)
                      ++ report_section t0 ++ report_section t1)).
Proof.
  apply (login_flow_run sample_uuid4 sample_now sample_claude_of
                        sample_schedule).
  vm_compute. reflexivity.
Defined.

(** C8 fails as worded: in the sample run both tasks are [completed],
    and the mock result of the first is built from its prompt, not from
    the objective. *)
Lemma login_flow_not_mentioned :
  ~ login_flow_run_as_specified sample_uuid4 sample_now sample_claude_of
                                sample_schedule.
Proof.
  intros Hspec.
  destruct (Hspec sample_run_returns)
    as (t0 & t1 & Htasks & _ & _ & Hmention & _).
  vm_compute in Htasks. injection Htasks as <- <-.
  vm_compute in Hmention. discriminate.
Qed.

(** * Further properties of the code *)

(** ** AgentTask *)

Lemma executed_frozen test_mode env self :
  agent_id (executed test_mode env self) = agent_id self /\
  prompt (executed test_mode env self) = prompt self /\
  name (executed test_mode env self) = name self /\
  started_at (executed test_mode env self) = Some (now_start env) /\
  ended_at (executed test_mode env self) = Some (now_end env) /\
  terminal (status (executed test_mode env self)) = true.
Proof.
  destruct test_mode; [rewrite executed_mock; cbn; auto 7 |].
  destruct (claude env) as [e | e | rc stdout stderr] eqn:Hrun.
  - rewrite (executed_raised env self e) by auto. cbn. auto 7.
  - rewrite (executed_raised env self e) by auto. cbn. auto 7.
  - rewrite (executed_exited env self rc stdout stderr) by assumption. cbn.
    split_and!; try reflexivity. destruct (rc =? 0)%Z; reflexivity.
Qed.

(** X1. A task never has an empty name: the constructor keeps a given
    name and falls back to "Agent-" followed by the first four
    characters of the identifier; [execute] does not touch it. *)
Theorem AgentTask_name_nonempty (agent_id prompt name0 : str)
    (test_mode : bool) (env : Env) :
  let t := AgentTask_init agent_id prompt name0 in
  name t = (if decide (name0 = []) then py "Agent-" ++ take 4 agent_id
            else name0) /\
  name t <> [] /\
  name (executed test_mode env t) = name t.
Proof.
  cbn. split_and!.
  - destruct name0; reflexivity.
  - destruct name0; discriminate.
  - apply executed_frozen.
Qed.

(** X2. For a task as the constructor made it, [execute] leaves the
    [error] attribute set exactly when it leaves the status [failed];
    when the command could not be run at all, the result stays
    empty. *)
Theorem execute_error_iff_failed (agent_id prompt name0 : str)
    (test_mode : bool) (env : Env) :
  let t := executed test_mode env (AgentTask_init agent_id prompt name0) in
  (is_Some (error t) <-> status t = failed) /\
  (status t = completed \/ status t = failed) /\
  forall e, test_mode = false ->
    claude env = LaunchError e \/ claude env = CommunicateError e ->
    result t = [].
Proof.
  cbn. destruct test_mode.
  - rewrite executed_mock. cbn. split_and!.
    + split; [intros [x Hx]; discriminate | discriminate].
    + left. reflexivity.
    + discriminate.
  - destruct (claude env) as [e | e | rc stdout stderr] eqn:Hrun.
    + rewrite (executed_raised env _ e) by auto. cbn. split_and!.
      * split; [reflexivity | intros _; eexists; reflexivity].
      * right. reflexivity.
      * reflexivity.
    + rewrite (executed_raised env _ e) by auto. cbn. split_and!.
      * split; [reflexivity | intros _; eexists; reflexivity].
      * right. reflexivity.
      * reflexivity.
    + rewrite (executed_exited env _ rc stdout stderr) by assumption. cbn.
      destruct (rc =? 0)%Z; split_and!.
      * split; [intros [x Hx]; discriminate | discriminate].
      * left. reflexivity.
      * intros e _ [[=] | [=]].
      * split; [reflexivity | intros _; eexists; reflexivity].
      * right. reflexivity.
      * intros e _ [[=] | [=]].
Qed.

(** ** Task derivation, again *)

(** X3. [initialize_tasks] appends: the tasks an orchestrator already
    has stay in front, [max count 0] new ones follow, each costing one
    UUID draw; the other attributes of the orchestrator stay as they
    are, and no file is written but the debug log.  A count of zero or
    below adds nothing. *)
Theorem initialize_tasks_appends (uuid4 : nat -> str) (o : Orchestrator)
    (w : World) :
  let o' := (initialize_tasks uuid4 o w).1 in
  let w' := (initialize_tasks uuid4 o w).2 in
  take (length (tasks o)) (tasks o') = tasks o /\
  length (tasks o') = length (tasks o) + Z.to_nat (agent_count o) /\
  (main_prompt o', agent_count o', test_mode o', session_id o')
    = (main_prompt o, agent_count o, test_mode o, session_id o) /\
  uuid_draws w' = uuid_draws w + Z.to_nat (agent_count o) /\
  (forall p, p <> DEBUG_LOG -> files w' !! p = files w !! p) /\
  state_writes w' = state_writes w /\
  ((agent_count o <=? 0)%Z = true -> tasks o' = tasks o).
Proof.
  cbn. rewrite initialize_tasks_eq. cbn. split_and!; try reflexivity.
  - rewrite take_app_length. reflexivity.
  - rewrite length_app, length_fmap, length_seq. reflexivity.
  - intros Hle. apply Z.leb_le in Hle.
    replace (Z.to_nat (agent_count o)) with 0 by lia.
    cbn. apply app_nil_r.
Qed.

(** X4. The role table wraps around: in a new orchestrator's task
    list, the tasks five slots apart have the same name and the same
    prompt, and differ in their identifier when [uuid4] never repeats
    a value. *)
Theorem initialize_tasks_wraps (uuid4 : nat -> str) (main_prompt : str)
    (count : Z) (test_mode : bool) (w : World) (i : nat) (t t' : AgentTask) :
  (forall i j, uuid4 i = uuid4 j -> i = j) ->
  let new := Orchestrator_init uuid4 main_prompt count test_mode w in
  let ts := tasks (initialize_tasks uuid4 new.1 new.2).1 in
  ts !! i = Some t ->
  ts !! (i + 5) = Some t' ->
  name t = name t' /\ prompt t = prompt t' /\ agent_id t <> agent_id t'.
Proof.
  intros Hfresh new ts. subst ts new. rewrite initialize_tasks_eq. cbn.
  rewrite !list_lookup_fmap.
  intros Ht Ht'.
  destruct (seq 0 (Z.to_nat count) !! i) as [k |] eqn:Hk; [| discriminate].
  destruct (seq 0 (Z.to_nat count) !! (i + 5)) as [k' |] eqn:Hk';
    [| discriminate].
  apply lookup_seq in Hk as [-> _]. apply lookup_seq in Hk' as [-> _].
  cbn in Ht, Ht'. injection Ht as <-. injection Ht' as <-.
  destruct (role_lookup i) as (r & _ & Hr & Hne).
  unfold derived_task.
  replace ((i + 5) mod length agent_map) with (i mod length agent_map)
    by (change (length agent_map) with 5;
        rewrite <- (Nat.Div0.mod_add i 1 5); f_equal; lia).
  rewrite Hr. unfold AgentTask_init. cbn [name prompt agent_id].
  destruct (agent r); [contradiction |].
  split_and!; try reflexivity.
  intros Heq. apply Hfresh in Heq. lia.
Qed.

Lemma initialize_tasks_wraps_witness :
  let new := Orchestrator_init sample_uuid4 (py "x") 7 false fresh_world in
  let ts := tasks (initialize_tasks sample_uuid4 new.1 new.2).1 in
  exists t t',
    ts !! 1 = Some t /\ ts !! 6 = Some t' /\
    name t = name t' /\ prompt t = prompt t' /\ agent_id t <> agent_id t'.
Proof.
  intros new ts.
  destruct (ts !! 1) as [t |] eqn:Ht; [| discriminate].
  destruct (ts !! 6) as [t' |] eqn:Ht'; [| discriminate].
  exists t, t'. split; [reflexivity |]. split; [reflexivity |].
  apply (initialize_tasks_wraps sample_uuid4 (py "x") 7 false fresh_world 1 t t').
  - intros a b Heq. unfold sample_uuid4 in Heq.
    apply app_inv_head in Heq. injection Heq as Heq. lia.
  - exact Ht.
  - exact Ht'.
Defined.

(** ** The state file and the report file *)

(** X5. The state file is one file for all sessions and is
    overwritten: after [save_state] of a record whose text can be
    encoded it holds this orchestrator's record, whatever any session
    wrote there before; every other file, the debug log apart, is as
    it was, and no UUID is drawn. *)
Theorem save_state_overwrites (now : nat -> str) (self : Orchestrator)
    (w : World) (p : path) :
  let w' := save_state now self w in
  json_encodable (state_record self (now (clock_reads w))
                               (task_state <$> tasks self)) = true ->
  p <> DEBUG_LOG ->
  files w' !! p =
    (if decide (p = ORCHESTRATOR_STATE_FILE)
     then Some (Json (state_record self (now (clock_reads w))
                                   (task_state <$> tasks self)))
     else files w !! p) /\
  uuid_draws w' = uuid_draws w /\
  length (snapshot_entries (state_record self (now (clock_reads w))
                                         (task_state <$> tasks self)))
    = length (tasks self).
Proof.
  intros w' _ _. subst w'.
  unfold save_state, read_clock, write_state, write_text.
  cbn [files uuid_draws clock_reads state_writes].
  split_and!; try reflexivity.
  - destruct (decide (p = ORCHESTRATOR_STATE_FILE)) as [-> | Hne].
    + apply lookup_insert_eq.
    + apply lookup_insert_ne. congruence.
  - rewrite snapshot_entries_state_record, length_fmap. reflexivity.
Qed.

Lemma save_state_overwrites_witness :
  let self :=
    mkOrchestrator (py "x") 1 true (sample_uuid4 0)
      [AgentTask_init (sample_uuid4 1) (py "do it") (py "worker")] in
  let w :=
    mkWorld {[ ORCHESTRATOR_STATE_FILE := Json JNull ]} 2 0 [JNull] in
  files (save_state sample_now self w) !! ORCHESTRATOR_STATE_FILE
    = Some (Json (state_record self (sample_now 0)
                               (task_state <$> tasks self))).
Proof.
  intros self w.
  destruct (save_state_overwrites sample_now self w ORCHESTRATOR_STATE_FILE
              ltac:(vm_compute; reflexivity) ltac:(discriminate))
    as (Hfile & _).
  rewrite decide_True in Hfile by reflexivity. exact Hfile.
Defined.

(** X6. [synthesize] can be repeated: when the text of the report can
    be encoded, a second call leaves the orchestrator and, the debug
    log apart, the files as the first did.  It writes the report file
    only; the state file and every other file keep their content. *)
Theorem synthesize_idempotent (self : Orchestrator) (w : World) (p : path) :
  let once := synthesize self w in
  let twice := synthesize once.1 once.2 in
  encodable (report_of self) = true ->
  p <> DEBUG_LOG ->
  twice.1 = once.1 /\
  files twice.2 !! p = files once.2 !! p /\
  files once.2 !! p =
    (if decide (p = report_file_of self) then Some (Text (report_of self))
     else files w !! p) /\
  files once.2 !! ORCHESTRATOR_STATE_FILE
    = files w !! ORCHESTRATOR_STATE_FILE /\
  state_writes twice.2 = state_writes w.
Proof.
  intros once twice _ _. subst once twice.
  unfold synthesize, write_text.
  cbn [fst snd files state_writes]. split_and!.
  - reflexivity.
  - rewrite insert_insert_eq. reflexivity.
  - rewrite report_loop. fold (report_of self).
    destruct (decide (p = report_file_of self)) as [-> | Hne].
    + apply lookup_insert_eq.
    + apply lookup_insert_ne. congruence.
  - apply lookup_insert_ne. intros Heq.
    apply (f_equal length) in Heq. discriminate.
  - reflexivity.
Qed.

Lemma synthesize_idempotent_witness :
  let self :=
    mkOrchestrator (py "x") 1 true (sample_uuid4 0)
      [with_result (py "ok")
         (AgentTask_init (sample_uuid4 1) (py "do it") (py "worker"))] in
  let once := synthesize self fresh_world in
  let twice := synthesize once.1 once.2 in
  files twice.2 !! report_file_of self = files once.2 !! report_file_of self.
Proof.
  intros self once twice.
  destruct (synthesize_idempotent self fresh_world (report_file_of self)
              ltac:(vm_compute; reflexivity) ltac:(discriminate))
    as (_ & Hsame & _).
  exact Hsame.
Defined.

(** ** Runs, again *)

Lemma T0_fresh uuid4 P n i t0 : T0 uuid4 P n !! i = Some t0 -> fresh t0.
Proof.
  unfold T0. rewrite list_lookup_fmap.
  destruct (seq 0 (Z.to_nat n) !! i); cbn; [| discriminate].
  intros [= <-]. repeat split.
Qed.

Lemma length_T0 uuid4 P n : length (T0 uuid4 P n) = Z.to_nat n.
Proof. unfold T0. rewrite length_fmap, length_seq. reflexivity. Qed.

Lemma executed_fresh test_mode env t0 :
  fresh t0 ->
  status (executed test_mode env t0) = outcome_status test_mode (claude env) /\
  error (executed test_mode env t0) = outcome_error test_mode (claude env).
Proof.
  intros (_ & _ & _ & _ & Herr). destruct test_mode.
  - rewrite executed_mock. cbn. auto.
  - cbn. destruct (claude env) as [e | e | rc stdout stderr] eqn:Hrun.
    + rewrite (executed_raised env t0 e) by auto. cbn. auto.
    + rewrite (executed_raised env t0 e) by auto. cbn. auto.
    + rewrite (executed_exited env t0 rc stdout stderr) by assumption. cbn.
      destruct (rc =? 0)%Z; auto.
Qed.

(** X7. Failures are isolated.  When [run] has returned, every task
    has a terminal status and both timestamps, and the status and the
    error of the task in slot [i] are those that the command started
    for slot [i] gives: [failed] with its stderr or exception text if
    that command failed, [completed] without an error otherwise,
    whatever the commands of the other slots did. *)
Theorem run_isolates_failures (uuid4 now : nat -> str)
    (claude_of : nat -> subprocess_run) (main_prompt : str) (agent_count : Z)
    (test_mode : bool) (schedule : list event) (i : nat) (t : AgentTask) :
  let st := run uuid4 now claude_of main_prompt agent_count test_mode
                schedule in
  main st = MDone ->
  tasks (orch st) !! i = Some t ->
  terminal (status t) = true /\
  is_Some (started_at t) /\ is_Some (ended_at t) /\
  status t = outcome_status test_mode (claude_of i) /\
  error t = outcome_error test_mode (claude_of i).
Proof.
  intros st Hm Ht.
  destruct (run_done uuid4 now claude_of main_prompt agent_count test_mode
                     schedule Hm) as (_ & Hlen & Htasks & _).
  fold st in Hlen, Htasks.
  destruct (lookup_lt_is_Some_2 (T0 uuid4 main_prompt agent_count) i)
    as [t0 Ht0].
  { apply lookup_lt_Some in Ht. lia. }
  destruct (Htasks i t0 Ht0) as (env & Henv & Hexec).
  rewrite Hexec in Ht. injection Ht as <-.
  destruct (executed_frozen test_mode env t0) as (_ & _ & _ & Hs & He & Hterm).
  destruct (executed_fresh test_mode env t0 (T0_fresh _ _ _ _ _ Ht0))
    as [Hstatus Herror].
  rewrite Hs, He, Hstatus, Herror, Henv.
  split_and!; eauto. rewrite <- Henv, <- Hstatus. exact Hterm.
Qed.

Lemma sample_real_run_returns :
  main (run sample_uuid4 sample_now sample_real_claude_of (py "x") 2 false
            sample_real_schedule) = MDone.
Proof. vm_compute. reflexivity. Qed.

Lemma run_isolates_failures_witness :
  let st := run sample_uuid4 sample_now sample_real_claude_of (py "x") 2 false
                sample_real_schedule in
  exists t,
    tasks (orch st) !! 0 = Some t /\
    terminal (status t) = true /\
    is_Some (started_at t) /\ is_Some (ended_at t) /\
    status t = failed /\
    error t = Some (py "not found").
Proof.
  intros st.
  destruct (tasks (orch st) !! 0) as [t |] eqn:Ht; [| vm_compute in Ht; discriminate].
  exists t. split; [reflexivity |].
  apply (run_isolates_failures sample_uuid4 sample_now sample_real_claude_of
           (py "x") 2 false sample_real_schedule 0 t).
  - vm_compute. reflexivity.
  - exact Ht.
Defined.

(** X8. When [run] has returned, [as_completed] has yielded the
    future of every task exactly once: the yielded slots are a
    permutation of [0 .. count-1]. *)
Theorem run_yields_each_once (uuid4 now : nat -> str)
    (claude_of : nat -> subprocess_run) (main_prompt : str) (agent_count : Z)
    (test_mode : bool) (schedule : list event) :
  let st := run uuid4 now claude_of main_prompt agent_count test_mode
                schedule in
  main st = MDone ->
  yielded st ≡ₚ seq 0 (Z.to_nat agent_count).
Proof.
  intros st Hm.
  pose proof (Inv_run uuid4 now claude_of main_prompt agent_count test_mode
                      schedule) as HI. fold st in HI.
  assert (spawned (main st) = true) as Hsp by (rewrite Hm; reflexivity).
  assert (drained (main st) = true) as Hdr by (rewrite Hm; reflexivity).
  destruct (inv_flight _ _ _ _ _ _ HI Hsp) as (_ & _ & Hlw & _).
  destruct (inv_yielded _ _ _ _ _ _ HI) as [Hnodup Hdone].
  pose proof (inv_drained _ _ _ _ _ _ HI Hdr) as Hlen.
  rewrite length_T0 in Hlen, Hlw.
  apply submseteq_length_Permutation; [| rewrite length_seq; lia].
  apply NoDup_submseteq; [exact Hnodup |].
  intros j Hj. apply elem_of_seq. apply Hdone, lookup_lt_Some in Hj. lia.
Qed.

Lemma run_yields_each_once_witness :
  yielded (run sample_uuid4 sample_now sample_claude_of (py "x") 2 true
               sample_schedule) ≡ₚ seq 0 (Z.to_nat 2).
Proof.
  apply (run_yields_each_once sample_uuid4 sample_now sample_claude_of
                              (py "x") 2 true sample_schedule).
  vm_compute. reflexivity.
Defined.

(** The sections of the report of a mock run, slot by slot. *)
Lemma mock_run_sections uuid4 now claude_of P n schedule :
  let st := run uuid4 now claude_of P n true schedule in
  main st = MDone ->
  report_section <$> tasks (orch st) =
  (fun t0 => report_section
               (with_status completed (with_result (mock_result t0) t0)))
    <$> T0 uuid4 P n.
Proof.
  intros st Hm.
  destruct (run_done uuid4 now claude_of P n true schedule Hm)
    as (_ & Hlen & Htasks & _).
  fold st in Hlen, Htasks.
  apply list_eq. intros i. rewrite !list_lookup_fmap.
  destruct (T0 uuid4 P n !! i) as [t0 |] eqn:Ht0.
  - destruct (Htasks i t0 Ht0) as (env & _ & ->). cbn.
    rewrite executed_mock. reflexivity.
  - apply lookup_ge_None in Ht0.
    rewrite (lookup_ge_None_2 (tasks (orch st))) by lia. reflexivity.
Qed.

(** X9. The report of a mock run does not depend on timing: two mock
    runs of the same objective and count that drew the same UUIDs
    write the same text to the same report file, whatever their
    schedules, clock readings and sleep times were. *)
Theorem mock_report_independent_of_schedule (uuid4 now1 now2 : nat -> str)
    (claude_of1 claude_of2 : nat -> subprocess_run) (main_prompt : str)
    (agent_count : Z) (schedule1 schedule2 : list event) :
  let st1 := run uuid4 now1 claude_of1 main_prompt agent_count true
                 schedule1 in
  let st2 := run uuid4 now2 claude_of2 main_prompt agent_count true
                 schedule2 in
  main st1 = MDone ->
  main st2 = MDone ->
  report_file_of (orch st1) = report_file_of (orch st2) /\
  is_Some (files (world st1) !! report_file_of (orch st1)) /\
  files (world st1) !! report_file_of (orch st1)
    = files (world st2) !! report_file_of (orch st2).
Proof.
  intros st1 st2. subst st1 st2. intros Hm1 Hm2.
  pose proof (Inv_run uuid4 now1 claude_of1 main_prompt agent_count true
                      schedule1) as HI1.
  pose proof (Inv_run uuid4 now2 claude_of2 main_prompt agent_count true
                      schedule2) as HI2.
  rewrite (inv_report _ _ _ _ _ _ HI1 Hm1), (inv_report _ _ _ _ _ _ HI2 Hm2).
  unfold report_of, report_file_of, report_header.
  rewrite (mock_run_sections uuid4 now1 claude_of1 main_prompt agent_count
                             schedule1 Hm1).
  rewrite (mock_run_sections uuid4 now2 claude_of2 main_prompt agent_count
                             schedule2 Hm2).
  rewrite (inv_session _ _ _ _ _ _ HI1), (inv_session _ _ _ _ _ _ HI2).
  rewrite (inv_prompt _ _ _ _ _ _ HI1), (inv_prompt _ _ _ _ _ _ HI2).
  split_and!; eauto.
Qed.

Lemma mock_report_independent_of_schedule_witness :
  let st1 := run sample_uuid4 sample_now sample_claude_of (py "x") 2 true
                 sample_schedule in
  let st2 := run sample_uuid4 (fun k => sample_now (k + 30))
                 sample_real_claude_of (py "x") 2 true sample_real_schedule in
  report_file_of (orch st1) = report_file_of (orch st2) /\
  is_Some (files (world st1) !! report_file_of (orch st1)) /\
  files (world st1) !! report_file_of (orch st1)
    = files (world st2) !! report_file_of (orch st2).
Proof.
  apply (mock_report_independent_of_schedule sample_uuid4 sample_now
           (fun k => sample_now (k + 30)) sample_claude_of
           sample_real_claude_of (py "x") 2 sample_schedule
           sample_real_schedule);
    vm_compute; reflexivity.
Defined.

(** X10. A worker writes to its own task only: a step of the worker of
    slot [i] leaves every other task, the main thread, the files other
    than the debug log, the snapshots written so far and the other
    fields of the orchestrator as they were. *)
Theorem worker_step_frame (now : nat -> str) (i : nat) (st : RunState) :
  let st' := worker_step now i st in
  length (tasks (orch st')) = length (tasks (orch st)) /\
  take i (tasks (orch st')) = take i (tasks (orch st)) /\
  drop (S i) (tasks (orch st')) = drop (S i) (tasks (orch st)) /\
  (main_prompt (orch st'), agent_count (orch st'), test_mode (orch st'),
   session_id (orch st'))
    = (main_prompt (orch st), agent_count (orch st), test_mode (orch st),
       session_id (orch st)) /\
  main st' = main st /\
  yielded st' = yielded st /\
  (forall p, p <> DEBUG_LOG ->
     files (world st') !! p = files (world st) !! p) /\
  state_writes (world st') = state_writes (world st) /\
  uuid_draws (world st') = uuid_draws (world st).
Proof.
  unfold worker_step.
  destruct (workers st !! i) as [[| op rest] |]; try (cbn; auto 10; fail).
  destruct (tasks (orch st) !! i) as [t |]; try (cbn; auto 10; fail).
  destruct (reads_clock op); cbn.
  - rewrite length_insert, take_insert_ge, drop_insert_lt by lia. auto 10.
  - rewrite length_insert, take_insert_ge, drop_insert_lt by lia. auto 10.
Qed.

Lemma prefix_lifecycle test_mode c t0 done ws t :
  fresh t0 ->
  execute_writes test_mode c t0 = done ++ ws ->
  runs_to t0 done t ->
  lifecycle_ok t = true.
Proof.
  intros (Hs & Hr & Hst & Hen & Her) Hsplit Hruns.
  destruct t0 as [id p nm s r st en er]. cbn in Hs, Hr, Hst, Hen, Her. subst.
  unfold execute_writes in Hsplit.
  destruct test_mode;
    [| destruct c as [e | e | rc stdout stderr];
       [| | destruct (rc =? 0)%Z]];
    cbn in Hsplit;
    repeat (destruct done as [| ? done]; cbn in Hsplit;
            [invert_runs; reflexivity |];
            try discriminate; injection Hsplit as <- Hsplit).
Qed.

(** X11. At every moment of every run, whatever the schedule, each
    task is in a state of its life cycle ([lifecycle_ok]): a pending
    task has no timestamp, no result and no error; [ended_at] and
    [error] are never set before the status they belong to, and no
    task is completed with an error. *)
Theorem run_lifecycle (uuid4 now : nat -> str)
    (claude_of : nat -> subprocess_run) (main_prompt : str) (agent_count : Z)
    (test_mode : bool) (schedule : list event) :
  Forall (fun t => lifecycle_ok t = true)
         (tasks (orch (run uuid4 now claude_of main_prompt agent_count
                           test_mode schedule))).
Proof.
  pose proof (Inv_run uuid4 now claude_of main_prompt agent_count test_mode
                      schedule) as HI.
  set (st := run uuid4 now claude_of main_prompt agent_count test_mode
                 schedule) in *.
  apply Forall_lookup. intros i t Ht.
  destruct (spawned (main st)) eqn:Hsp.
  - destruct (inv_flight _ _ _ _ _ _ HI Hsp) as (_ & Hlt & Hlw & Hfl).
    pose proof (lookup_lt_Some _ _ _ Ht) as Hi.
    destruct (lookup_lt_is_Some_2 (T0 uuid4 main_prompt agent_count) i)
      as [t0 Ht0]; [lia |].
    destruct (lookup_lt_is_Some_2 (workers st) i) as [ws Hws]; [lia |].
    destruct (Hfl i t0 t ws Ht0 Ht Hws) as (done & Hsplit & Hruns).
    eapply prefix_lifecycle; eauto using T0_fresh.
  - destruct (main st) eqn:Hm; try discriminate.
    + rewrite (proj1 (inv_start _ _ _ _ _ _ HI Hm)) in Ht. discriminate.
    + rewrite (inv_derived _ _ _ _ _ _ HI) in Ht by (rewrite Hm; done).
      apply T0_fresh in Ht as (Hs & Hr & Hst & Hen & Her).
      unfold lifecycle_ok. rewrite Hs, Hr, Hst, Hen, Her. reflexivity.
    + rewrite (inv_derived _ _ _ _ _ _ HI) in Ht by (rewrite Hm; done).
      apply T0_fresh in Ht as (Hs & Hr & Hst & Hen & Her).
      unfold lifecycle_ok. rewrite Hs, Hr, Hst, Hen, Her. reflexivity.
    + rewrite (inv_derived _ _ _ _ _ _ HI) in Ht by (rewrite Hm; done).
      apply T0_fresh in Ht as (Hs & Hr & Hst & Hen & Her).
      unfold lifecycle_ok. rewrite Hs, Hr, Hst, Hen, Her. reflexivity.
Qed.

(** ** Waiting for the pool *)


Section TaskCount.

Variable uuid4 : nat -> str.
Variable claude_of : nat -> subprocess_run.
Variable P : str.
Variable n : Z.
Variable tm : bool.

Local Abbreviation Inv' := (Inv uuid4 claude_of P n tm).

Lemma tasks_length st :
  Inv' st -> main st <> MStart ->
  length (tasks (orch st)) = Z.to_nat n.
Proof.
  intros HI Hns. rewrite <- (length_T0 uuid4 P n).
  destruct (spawned (main st)) eqn:Hsp.
  - apply (inv_flight _ _ _ _ _ _ HI Hsp).
  - rewrite (inv_derived _ _ _ _ _ _ HI Hns Hsp). reflexivity.
Qed.

End TaskCount.



(** ** The snapshots of a run *)

Lemma worker_step_quiet now i st :
  main (worker_step now i st) = main st /\
  yielded (worker_step now i st) = yielded st /\
  files (world (worker_step now i st)) = files (world st) /\
  state_writes (world (worker_step now i st)) = state_writes (world st).
Proof.
  unfold worker_step.
  destruct (workers st !! i) as [[| op rest] |]; try (cbn; auto; fail).
  destruct (tasks (orch st) !! i) as [t |]; try (cbn; auto; fail).
  destruct (reads_clock op); cbn; auto.
Qed.

Lemma count_true_all (entries : list json) :
  all_terminal entries ->
  count_true (entry_terminal <$> entries) = length entries.
Proof.
  induction 1 as [| e entries He _ IH]; cbn; [reflexivity |].
  rewrite He, IH. reflexivity.
Qed.

Section SnapshotProofs.

Variable uuid4 : nat -> str.
Variable now : nat -> str.
Variable claude_of : nat -> subprocess_run.
Variable P : str.
Variable n : Z.
Variable tm : bool.

Local Abbreviation T0' := (T0 uuid4 P n).
Local Abbreviation Inv' := (Inv uuid4 claude_of P n tm).
Local Abbreviation SnapInv' := (SnapInv uuid4 P n).
Local Abbreviation main_step' := (main_step uuid4 now claude_of).
Local Abbreviation step' := (step uuid4 now claude_of).
Local Abbreviation exec' := (exec uuid4 now claude_of).
Local Abbreviation run' := (run uuid4 now claude_of).

Lemma SnapInv_start : SnapInv' (start uuid4 P n tm).
Proof.
  constructor; cbn; try reflexivity; try discriminate.
  all: try constructor.
Qed.

Lemma SnapInv_worker_step i st :
  SnapInv' st -> SnapInv' (worker_step now i st).
Proof.
  intros HS. destruct (worker_step_quiet now i st) as (Hm & Hy & Hf & Hw).
  constructor; rewrite ?Hm, ?Hy, ?Hf, ?Hw; apply HS.
Qed.

(** Once every future has been yielded, every task is terminal. *)
Lemma all_yielded_terminal st i t :
  Inv' st -> spawned (main st) = true ->
  length (yielded st) = Z.to_nat n ->
  tasks (orch st) !! i = Some t ->
  terminal (status t) = true.
Proof.
  intros HI Hsp Hall Ht.
  destruct (inv_flight _ _ _ _ _ _ HI Hsp) as (_ & Hlt & Hlw & Hfl).
  destruct (inv_yielded _ _ _ _ _ _ HI) as [Hnodup Hdone].
  rewrite length_T0 in Hlt, Hlw.
  pose proof (lookup_lt_Some _ _ _ Ht) as Hi.
  assert (workers st !! i = Some []) as Hw.
  { apply Hdone. apply (all_slots_yielded (yielded st) (Z.to_nat n));
      try assumption; try lia.
    intros j Hj. apply Hdone, lookup_lt_Some in Hj. lia. }
  destruct (lookup_lt_is_Some_2 T0' i) as [t0 Ht0];
    [rewrite length_T0; lia |].
  destruct (Hfl i t0 t [] Ht0 Ht Hw) as (done & Hsplit & Hruns).
  rewrite app_nil_r in Hsplit. subst done.
  apply execute_writes_complete in Hruns as (env & _ & ->).
  apply executed_frozen.
Qed.

Lemma SnapInv_main_save st k timestamp entries pick :
  Inv' st -> SnapInv' st -> main st = MSaveState k timestamp entries ->
  SnapInv' (main_step' pick st).
Proof.
  intros HI HS Hm.
  pose proof (snap_count _ _ _ _ HS) as Hc. rewrite Hm in Hc. cbn in Hc.
  destruct (snap_building _ _ _ _ HS k timestamp entries Hm)
    as (Hsize & Hinit & Hloop).
  pose proof (tasks_length uuid4 claude_of P n tm st HI
                           ltac:(rewrite Hm; discriminate)) as Hlen.
  unfold main_step. rewrite Hm.
  destruct (tasks (orch st) !! length entries) as [t |] eqn:Ht.
  - pose proof (lookup_lt_Some _ _ _ Ht) as Hlt.
    constructor; cbn [orch world main workers yielded to_write between_saves].
    + exact Hc.
    + apply HS.
    + apply HS.
    + apply HS.
    + intros k' timestamp' entries' [= <- <- <-]. split_and!.
      * rewrite length_app. cbn. lia.
      * intros ->. rewrite length_app, Nat.add_1_r.
        rewrite (inv_derived _ _ _ _ _ _ HI) in Ht by (rewrite Hm; done).
        rewrite (take_S_r _ _ t) by exact Ht.
        rewrite fmap_app, <- (Hinit eq_refl). reflexivity.
      * intros ->. destruct (Hloop eq_refl) as [Hne Hterm].
        split; [exact Hne |]. intros Hall.
        apply Forall_app. split; [exact (Hterm Hall) |].
        apply Forall_singleton. rewrite entry_terminal_task_state.
        apply (all_yielded_terminal st (length entries)); try assumption.
        rewrite Hm. reflexivity.
    + discriminate.
  - apply lookup_ge_None in Ht.
    constructor; cbn [orch world main workers yielded].
    + unfold write_state, write_text. cbn [state_writes].
      rewrite length_app. cbn [length].
      destruct k; cbn [to_write]; lia.
    + unfold write_state, write_text. cbn [files state_writes].
      rewrite lookup_insert_eq, last_snoc. reflexivity.
    + unfold write_state, write_text. cbn [state_writes].
      apply Forall_app. split; [apply HS |].
      apply Forall_singleton. rewrite snapshot_entries_state_record. lia.
    + unfold write_state, write_text. cbn [state_writes]. intros state Hs.
      destruct (state_writes (world st)) as [| s0 ws] eqn:Hws.
      * cbn in Hs. injection Hs as <-.
        rewrite snapshot_entries_state_record.
        destruct k.
        -- rewrite (Hinit eq_refl), take_ge; [reflexivity |].
           rewrite length_T0. lia.
        -- destruct (Hloop eq_refl) as [Hne _].
           cbn in Hc. destruct (yielded st); [contradiction | cbn in Hc; lia].
      * cbn in Hs. apply (snap_first _ _ _ _ HS). rewrite Hws. exact Hs.
    + intros k' timestamp' entries' Hx. destruct k; discriminate.
    + intros Hb Hall state Hlast.
      unfold write_state, write_text in Hlast. cbn [state_writes] in Hlast.
      rewrite last_snoc in Hlast. injection Hlast as <-.
      rewrite snapshot_entries_state_record.
      destruct k; [discriminate |]. apply (Hloop eq_refl). exact Hall.
Qed.

Lemma SnapInv_main_step pick st :
  Inv' st -> SnapInv' st -> SnapInv' (main_step' pick st).
Proof.
  intros HI HS.
  pose proof (snap_count _ _ _ _ HS) as Hc.
  destruct (main st) as [| k timestamp entries | | | | | e] eqn:Hm.
  - rewrite (main_step_start uuid4 now claude_of P n tm) by assumption.
    cbn in Hc.
    constructor; cbn [orch world main workers yielded files state_writes
                      to_write between_saves].
    + exact Hc.
    + apply HS.
    + apply HS.
    + apply HS.
    + intros k timestamp entries [= <- <- <-]. split_and!.
      * cbn. lia.
      * reflexivity.
      * discriminate.
    + discriminate.
  - eapply SnapInv_main_save; eassumption.
  - unfold main_step. rewrite Hm. cbn in Hc.
    destruct (inv_idle _ _ _ _ _ _ HI ltac:(rewrite Hm; reflexivity))
      as [_ Hy].
    destruct (agent_count (orch st) <=? 0)%Z eqn:Hle.
    + constructor; cbn [orch world main workers yielded to_write between_saves];
        try apply HS; try discriminate. exact Hc.
    + apply Z.leb_gt in Hle. rewrite (inv_count _ _ _ _ _ _ HI) in Hle.
      constructor; cbn [orch world main workers yielded to_write between_saves
                        length];
        try apply HS; try discriminate.
      * rewrite Hy in Hc. exact Hc.
      * intros _ Hall. lia.
  - unfold main_step. rewrite Hm. cbn in Hc.
    destruct (decide (length (yielded st) = length (tasks (orch st))))
      as [Hall | Hmore].
    + constructor; cbn [orch world main workers yielded to_write between_saves];
        try apply HS; try discriminate.
      * exact Hc.
      * intros _. apply (snap_final _ _ _ _ HS). rewrite Hm. reflexivity.
    + destruct (decide (workers st !! pick = Some [] /\ pick ∉ yielded st))
        as [[Hpick Hnew] |]; [| exact HS].
      constructor; cbn [orch world main workers yielded to_write between_saves
                        read_clock files state_writes];
        try apply HS; try discriminate.
      * rewrite length_app. cbn [length]. lia.
      * intros k timestamp entries [= <- <- <-]. split_and!.
        -- cbn. lia.
        -- discriminate.
        -- intros _. split; [| intros _; constructor].
           intros Heq. apply (f_equal length) in Heq.
           rewrite length_app in Heq. cbn in Heq. lia.
  - unfold main_step. rewrite Hm. cbn in Hc.
    unfold synthesize, write_text.
    constructor; cbn [orch world main workers yielded to_write between_saves
                      files state_writes];
      try apply HS; try discriminate.
    + exact Hc.
    + rewrite lookup_insert_ne by apply report_file_not_state_file.
      apply HS.
    + intros _. apply (snap_final _ _ _ _ HS). rewrite Hm. reflexivity.
  - unfold main_step. rewrite Hm. exact HS.
  - unfold main_step. rewrite Hm. exact HS.
Qed.

Lemma SnapInv_exec schedule : forall st,
  Inv' st -> SnapInv' st -> SnapInv' (exec' schedule st).
Proof.
  induction schedule as [| ev schedule IH]; intros st HI HS; [exact HS |].
  change (exec' (ev :: schedule) st) with (exec' schedule (step' st ev)).
  destruct ev as [pick | i]; cbn [step].
  - apply IH; [apply Inv_main_step | apply SnapInv_main_step]; assumption.
  - apply IH; [apply Inv_worker_step | apply SnapInv_worker_step]; assumption.
Qed.

(** Every state of a run satisfies the snapshot invariant. *)
Lemma SnapInv_run schedule : SnapInv' (run' P n tm schedule).
Proof. apply SnapInv_exec; [apply Inv_start | apply SnapInv_start]. Qed.

End SnapshotProofs.

(** X13. When [run] has returned it has written one snapshot after
    the derivation and one per task; the state file holds the last of
    them, which has an entry for every task and records every task
    with a terminal status. *)
Theorem run_final_snapshot (uuid4 now : nat -> str)
    (claude_of : nat -> subprocess_run) (main_prompt : str) (agent_count : Z)
    (test_mode : bool) (schedule : list event) :
  let st := run uuid4 now claude_of main_prompt agent_count test_mode
                schedule in
  main st = MDone ->
  length (state_writes (world st)) = 1 + Z.to_nat agent_count /\
  exists state,
    last (state_writes (world st)) = Some state /\
    files (world st) !! ORCHESTRATOR_STATE_FILE = Some (Json state) /\
    length (snapshot_entries state) = Z.to_nat agent_count /\
    terminal_count state = Z.to_nat agent_count.
Proof.
  intros st Hm.
  pose proof (Inv_run uuid4 now claude_of main_prompt agent_count test_mode
                      schedule) as HI.
  pose proof (SnapInv_run uuid4 now claude_of main_prompt agent_count
                          test_mode schedule) as HS.
  fold st in HI, HS.
  pose proof (inv_drained _ _ _ _ _ _ HI ltac:(rewrite Hm; reflexivity))
    as Hy.
  rewrite length_T0 in Hy.
  pose proof (snap_count _ _ _ _ HS) as Hc. rewrite Hm, Hy in Hc. cbn in Hc.
  split; [lia |].
  destruct (last (state_writes (world st))) as [state |] eqn:Hlast.
  - exists state.
    assert (length (snapshot_entries state) = Z.to_nat agent_count) as Hsize.
    { pose proof (snap_sizes _ _ _ _ HS) as Hsizes.
      rewrite Forall_forall in Hsizes. apply Hsizes.
      rewrite last_lookup in Hlast. eapply list_elem_of_lookup_2. exact Hlast. }
    split_and!; try reflexivity; try assumption.
    + rewrite (snap_file _ _ _ _ HS), Hlast. reflexivity.
    + unfold terminal_count. rewrite count_true_all; [exact Hsize |].
      apply (snap_final _ _ _ _ HS); try assumption.
      rewrite Hm. reflexivity.
  - apply last_None in Hlast. rewrite Hlast in Hc. cbn in Hc. lia.
Qed.

Lemma run_final_snapshot_witness :
  let st := run sample_uuid4 sample_now sample_real_claude_of (py "x") 2 false
                sample_real_schedule in
  length (state_writes (world st)) = 1 + Z.to_nat 2 /\
  exists state,
    last (state_writes (world st)) = Some state /\
    files (world st) !! ORCHESTRATOR_STATE_FILE = Some (Json state) /\
    length (snapshot_entries state) = Z.to_nat 2 /\
    terminal_count state = Z.to_nat 2.
Proof.
  apply (run_final_snapshot sample_uuid4 sample_now sample_real_claude_of
                            (py "x") 2 false sample_real_schedule).
  vm_compute. reflexivity.
Defined.

Lemma pending_entries_count (l : list AgentTask) :
  Forall (fun t => status t = pending) l ->
  count_true (entry_terminal <$> (task_state <$> l)) = 0.
Proof.
  induction 1 as [| t l Ht _ IH]; [reflexivity |].
  change (count_true (entry_terminal (task_state t)
                        :: (entry_terminal <$> (task_state <$> l))) = 0).
  cbn [count_true]. rewrite entry_terminal_task_state, Ht, IH. reflexivity.
Qed.

(** X14. The first snapshot of a run, once written, lists the derived
    tasks in slot order as the constructor left them, none of them
    terminal: the workers have not been started when it is built. *)
Theorem run_first_snapshot (uuid4 now : nat -> str)
    (claude_of : nat -> subprocess_run) (main_prompt : str) (agent_count : Z)
    (test_mode : bool) (schedule : list event) (state : json) :
  let st := run uuid4 now claude_of main_prompt agent_count test_mode
                schedule in
  state_writes (world st) !! 0 = Some state ->
  snapshot_entries state
    = (fun k => task_state (derived_task uuid4 main_prompt (1 + k) k))
        <$> seq 0 (Z.to_nat agent_count) /\
  terminal_count state = 0.
Proof.
  intros st Hfirst.
  pose proof (SnapInv_run uuid4 now claude_of main_prompt agent_count
                          test_mode schedule) as HS.
  fold st in HS.
  pose proof (snap_first _ _ _ _ HS state Hfirst) as Hentries.
  split.
  - rewrite Hentries. unfold T0. rewrite <- list_fmap_compose. reflexivity.
  - unfold terminal_count. rewrite Hentries.
    apply pending_entries_count, Forall_lookup.
    intros i t Ht. apply T0_fresh in Ht. apply Ht.
Qed.

Lemma run_first_snapshot_witness :
  let st := run sample_uuid4 sample_now sample_real_claude_of (py "x") 2 false
                sample_real_schedule in
  exists state,
    state_writes (world st) !! 0 = Some state /\
    snapshot_entries state
      = (fun k => task_state (derived_task sample_uuid4 (py "x") (1 + k) k))
          <$> seq 0 (Z.to_nat 2) /\
    terminal_count state = 0.
Proof.
  intros st.
  destruct (state_writes (world st) !! 0) as [state |] eqn:Hs;
    [| vm_compute in Hs; discriminate].
  exists state. split; [reflexivity |].
  apply (run_first_snapshot sample_uuid4 sample_now sample_real_claude_of
                            (py "x") 2 false sample_real_schedule state).
  exact Hs.
Defined.

(** ** A run in a process that has run before *)

Section Over.

Variable uuid4 : nat -> str.
Variable now : nat -> str.
Variable claude_of : nat -> subprocess_run.
Variable w0 : World.

Local Abbreviation uuid4' := (shift uuid4 (uuid_draws w0)).
Local Abbreviation now' := (shift now (clock_reads w0)).

Lemma over_read_clock w :
  read_clock now (over w0 w)
  = ((read_clock now' w).1, over w0 (read_clock now' w).2).
Proof.
  unfold read_clock, over, shift. cbn. f_equal. f_equal. lia.
Qed.

Lemma over_write_state state w :
  write_state state (over w0 w) = over w0 (write_state state w).
Proof.
  unfold write_state, write_text, over. cbn. f_equal.
  - apply insert_union_l.
  - rewrite app_assoc. reflexivity.
Qed.

Lemma over_initialize_tasks o w :
  initialize_tasks uuid4 o (over w0 w)
  = ((initialize_tasks uuid4' o w).1,
     over w0 (initialize_tasks uuid4' o w).2).
Proof.
  rewrite !initialize_tasks_eq. unfold over. cbn. f_equal.
  - f_equal. f_equal. apply list_fmap_ext. intros _ k _.
    unfold derived_task, shift. rewrite Nat.add_assoc. reflexivity.
  - f_equal. lia.
Qed.

Lemma over_synthesize o w :
  synthesize o (over w0 w) = ((synthesize o w).1, over w0 (synthesize o w).2).
Proof.
  unfold synthesize, write_text, over. cbn. f_equal. f_equal.
  apply insert_union_l.
Qed.

Lemma over_worker_step i st :
  worker_step now i (over_run w0 st)
  = over_run w0 (worker_step now' i st).
Proof.
  unfold worker_step. cbn [over_run orch workers world main yielded].
  destruct (workers st !! i) as [[| op rest] |]; try reflexivity.
  destruct (tasks (orch st) !! i) as [t |]; try reflexivity.
  destruct (reads_clock op); [| reflexivity].
  rewrite over_read_clock. reflexivity.
Qed.

Lemma over_main_step pick st :
  main_step uuid4 now claude_of pick (over_run w0 st)
  = over_run w0 (main_step uuid4' now' claude_of pick st).
Proof.
  unfold main_step. cbn [over_run orch workers world main yielded].
  destruct (main st) as [| k timestamp entries | | | | | e].
  - unfold ensure_dirs. rewrite over_initialize_tasks.
    destruct (initialize_tasks uuid4' (orch st) (world st)) as [o w].
    cbn [fst snd]. rewrite over_read_clock. reflexivity.
  - destruct (tasks (orch st) !! length entries); [reflexivity |].
    rewrite over_write_state. reflexivity.
  - destruct (agent_count (orch st) <=? 0)%Z; reflexivity.
  - destruct (decide (length (yielded st) = length (tasks (orch st))));
      [reflexivity |].
    destruct (decide (workers st !! pick = Some [] /\ pick ∉ yielded st));
      [| reflexivity].
    rewrite over_read_clock. reflexivity.
  - rewrite over_synthesize. reflexivity.
  - reflexivity.
  - reflexivity.
Qed.

Lemma over_exec schedule : forall st,
  exec uuid4 now claude_of schedule (over_run w0 st)
  = over_run w0 (exec uuid4' now' claude_of schedule st).
Proof.
  induction schedule as [| ev schedule IH]; intros st; [reflexivity |].
  change (exec uuid4 now claude_of schedule
               (step uuid4 now claude_of (over_run w0 st) ev)
          = over_run w0 (exec uuid4' now' claude_of schedule
                              (step uuid4' now' claude_of st ev))).
  rewrite <- IH. f_equal.
  destruct ev as [pick | i]; [apply over_main_step | apply over_worker_step].
Qed.

(** The run that starts in [w0] is the run taken by itself, with the
    draws and clock readings that [w0] leaves, laid over [w0]. *)
Lemma run_from_over P n tm schedule :
  run_from uuid4 now claude_of w0 P n tm schedule
  = over_run w0 (run uuid4' now' claude_of P n tm schedule).
Proof.
  unfold run_from, run. rewrite <- over_exec. f_equal.
  unfold start, start_from, Orchestrator_init, draw_uuid, over_run, over,
    shift, fresh_world.
  cbn. rewrite !Nat.add_0_r, Nat.add_1_r, app_nil_r.
  rewrite (left_id_L ∅ (∪)). reflexivity.
Qed.

End Over.

(** X15. The state file follows the snapshots, in whatever state of
    the process and of the disk the run starts.  At every moment of
    the run, as long as the text of every snapshot it has written
    could be encoded, the state file holds the last of them, and what
    the start left there before the first; every snapshot of the run
    has exactly one entry per task, and there are never more of them
    than the initial one plus one per yielded future. *)
Theorem run_state_file_current (uuid4 now : nat -> str)
    (claude_of : nat -> subprocess_run) (w0 : World) (main_prompt : str)
    (agent_count : Z) (test_mode : bool) (schedule : list event) :
  let st := run_from uuid4 now claude_of w0 main_prompt agent_count test_mode
                     schedule in
  let new := drop (length (state_writes w0)) (state_writes (world st)) in
  Forall (fun state => json_encodable state = true) new ->
  state_writes (world st) = state_writes w0 ++ new /\
  files (world st) !! ORCHESTRATOR_STATE_FILE
    = match last new with
      | Some state => Some (Json state)
      | None => files w0 !! ORCHESTRATOR_STATE_FILE
      end /\
  Forall (fun state => length (snapshot_entries state) = Z.to_nat agent_count)
         new /\
  length new <= 1 + length (yielded st).
Proof.
  intros st new _. subst st new.
  rewrite run_from_over.
  set (st := run _ _ _ _ _ _ _).
  pose proof (SnapInv_run (shift uuid4 (uuid_draws w0))
                          (shift now (clock_reads w0)) claude_of main_prompt
                          agent_count test_mode schedule) as HS.
  fold st in HS.
  cbn [over_run over world state_writes files yielded].
  rewrite drop_app_length.
  split_and!.
  - reflexivity.
  - pose proof (snap_file _ _ _ _ HS) as Hfile.
    destruct (last (state_writes (world st))) as [state |].
    + apply lookup_union_Some_l. exact Hfile.
    + apply lookup_union_r. exact Hfile.
  - apply HS.
  - pose proof (snap_count _ _ _ _ HS). lia.
Qed.

Lemma run_state_file_current_witness :
  let w0 :=
    mkWorld {[ ORCHESTRATOR_STATE_FILE := Json JNull ]} 3 7 [JNull] in
  let st := run_from sample_uuid4 sample_now sample_real_claude_of w0 (py "x")
                     2 false sample_real_schedule in
  files (world st) !! ORCHESTRATOR_STATE_FILE
    = match last (drop 1 (state_writes (world st))) with
      | Some state => Some (Json state)
      | None => Some (Json JNull)
      end.
Proof.
  intros w0 st.
  destruct (run_state_file_current sample_uuid4 sample_now
              sample_real_claude_of w0 (py "x") 2 false sample_real_schedule
              ltac:(vm_compute; repeat constructor))
    as (_ & Hfile & _).
  exact Hfile.
Defined.

(** ** main *)

Lemma index_first (x : str) (pre rest : list str) :
  x ∉ pre -> index x (pre ++ x :: rest) = Some (length pre).
Proof.
  induction pre as [| y pre IH]; intros Hpre; cbn.
  - rewrite decide_True by reflexivity. reflexivity.
  - apply not_elem_of_cons in Hpre as [Hne Hpre].
    rewrite decide_False by congruence. rewrite IH by exact Hpre. reflexivity.
Qed.

(** X16. With fewer than two elements in [sys.argv], [main] prints the
    usage line and returns without constructing an orchestrator; with
    two or more it always runs one.  The prompt is [sys.argv[1]]
    whatever it is, and test mode is on exactly when "--test" occurs
    anywhere on the command line. *)
Theorem main_usage (uuid4 now : nat -> str) (claude_of : nat -> subprocess_run)
    (int : str -> option Z) (argv : list str) (schedule : list event) :
  (cli_main uuid4 now claude_of int argv schedule = Usage
   <-> length argv < 2) /\
  (2 <= length argv <->
   exists agents,
     cli_main uuid4 now claude_of int argv schedule
     = Ran (run uuid4 now claude_of (argv !!! 1) agents
                (bool_decide (py "--test" ∈ argv)) schedule)).
Proof.
  unfold cli_main. destruct (decide (length argv < 2)) as [Hlt | Hge].
  - split; [tauto |]. split; [lia | intros [agents [=]]].
  - split; [split; [discriminate | lia] |].
    split; [| lia]. intros _. eexists. reflexivity.
Qed.

(** X17. Without "--agents" on the command line, [main] runs three
    agents. *)
Theorem main_default_agents (uuid4 now : nat -> str)
    (claude_of : nat -> subprocess_run) (int : str -> option Z)
    (argv : list str) (schedule : list event) :
  2 <= length argv ->
  py "--agents" ∉ argv ->
  cli_main uuid4 now claude_of int argv schedule
  = Ran (run uuid4 now claude_of (argv !!! 1) 3
             (bool_decide (py "--test" ∈ argv)) schedule).
Proof.
  intros Hlen Hno. unfold cli_main.
  rewrite decide_False by lia.
  rewrite (bool_decide_eq_false_2 _ Hno). reflexivity.
Qed.

Lemma main_default_agents_witness :
  cli_main sample_uuid4 sample_now sample_claude_of sample_int
           [py "parallel_orchestrator.py"; py "--test"] sample_schedule
  = Ran (run sample_uuid4 sample_now sample_claude_of (py "--test") 3 true
             sample_schedule).
Proof.
  apply (main_default_agents sample_uuid4 sample_now sample_claude_of
           sample_int [py "parallel_orchestrator.py"; py "--test"]
           sample_schedule).
  - cbn. lia.
  - refine (proj1 (bool_decide_eq_false _) _). vm_compute. reflexivity.
Defined.

Lemma cli_main_agents uuid4 now claude_of int (pre rest : list str) schedule :
  pre <> [] -> py "--agents" ∉ pre ->
  cli_main uuid4 now claude_of int (pre ++ py "--agents" :: rest) schedule
  = Ran (run uuid4 now claude_of ((pre ++ py "--agents" :: rest) !!! 1)
             (match rest with
              | value :: _ => default 3%Z (int value)
              | [] => 3%Z
              end)
             (bool_decide (py "--test" ∈ pre ++ py "--agents" :: rest))
             schedule).
Proof.
  intros Hpre Hno. unfold cli_main.
  assert (0 < length pre) as Hlen by (destruct pre; [contradiction | cbn; lia]).
  rewrite decide_False by (rewrite length_app; cbn [length]; lia).
  rewrite (bool_decide_eq_true_2 (py "--agents" ∈ pre ++ py "--agents" :: rest))
    by (apply elem_of_app; right; apply elem_of_cons; left; reflexivity).
  rewrite index_first by exact Hno.
  destruct rest as [| value rest].
  - rewrite decide_False by (rewrite length_app; cbn [length]; lia). reflexivity.
  - rewrite decide_True by (rewrite length_app; cbn [length]; lia).
    rewrite (lookup_total_app_r pre _ (length pre + 1)) by lia.
    replace (length pre + 1 - length pre) with 1 by lia.
    change ((py "--agents" :: value :: rest) !!! 1) with value.
    destruct (int value); reflexivity.
Qed.

(** X18. The agent count is read after the first "--agents" on the
    command line: it is the integer that follows, and stays 3 when
    nothing follows or when what follows is not an integer. *)
Theorem main_agents_flag (uuid4 now : nat -> str)
    (claude_of : nat -> subprocess_run) (int : str -> option Z)
    (pre rest : list str) (schedule : list event) :
  pre <> [] ->
  py "--agents" ∉ pre ->
  cli_main uuid4 now claude_of int (pre ++ py "--agents" :: rest) schedule
  = Ran (run uuid4 now claude_of ((pre ++ py "--agents" :: rest) !!! 1)
             (match rest with
              | value :: _ => default 3%Z (int value)
              | [] => 3%Z
              end)
             (bool_decide (py "--test" ∈ pre ++ py "--agents" :: rest))
             schedule).
Proof. apply cli_main_agents. Qed.

Lemma main_agents_flag_witness :
  cli_main sample_uuid4 sample_now sample_claude_of sample_int
           ([py "parallel_orchestrator.py"; py "Review the login flow"]
              ++ py "--agents" :: [py "2"; py "--agents"; py "9"; py "--test"])
           sample_schedule
  = Ran (run sample_uuid4 sample_now sample_claude_of
             (py "Review the login flow") 2 true sample_schedule).
Proof.
  apply (main_agents_flag sample_uuid4 sample_now sample_claude_of sample_int
           [py "parallel_orchestrator.py"; py "Review the login flow"]
           [py "2"; py "--agents"; py "9"; py "--test"] sample_schedule).
  - discriminate.
  - refine (proj1 (bool_decide_eq_false _) _). vm_compute. reflexivity.
Defined.




(** ** What a run never changes *)

Lemma runs_to_frozen t done t' : runs_to t done t' -> frozen t' = frozen t.
Proof.
  induction 1 as [t | t timestamp op done t' _ IH]; [reflexivity |].
  rewrite IH. destruct op; reflexivity.
Qed.

Lemma run_tasks_frozen uuid4 now claude_of P n tm schedule :
  let st := run uuid4 now claude_of P n tm schedule in
  frozen <$> tasks (orch st) =
  match main st with
  | MStart => []
  | _ => frozen <$> T0 uuid4 P n
  end.
Proof.
  intros st.
  pose proof (Inv_run uuid4 now claude_of P n tm schedule) as HI.
  fold st in HI.
  assert (spawned (main st) = true ->
          frozen <$> tasks (orch st) = frozen <$> T0 uuid4 P n) as Hflight.
  { intros Hsp.
    destruct (inv_flight _ _ _ _ _ _ HI Hsp) as (_ & Hlt & Hlw & Hfl).
    apply list_eq. intros i. rewrite !list_lookup_fmap.
    destruct (T0 uuid4 P n !! i) as [t0 |] eqn:Ht0.
    - pose proof (lookup_lt_Some _ _ _ Ht0) as Hi.
      destruct (lookup_lt_is_Some_2 (tasks (orch st)) i) as [t Ht]; [lia |].
      destruct (lookup_lt_is_Some_2 (workers st) i) as [ws Hws]; [lia |].
      destruct (Hfl i t0 t ws Ht0 Ht Hws) as (done & _ & Hruns).
      rewrite Ht. cbn. f_equal. eapply runs_to_frozen. exact Hruns.
    - apply lookup_ge_None in Ht0.
      rewrite (lookup_ge_None_2 (tasks (orch st))) by lia. reflexivity. }
  destruct (main st) as [| [] ? ? | | | | |] eqn:Hm.
  - rewrite (proj1 (inv_start _ _ _ _ _ _ HI Hm)). reflexivity.
  - rewrite (inv_derived _ _ _ _ _ _ HI) by (rewrite Hm; done). reflexivity.
  - apply Hflight. reflexivity.
  - rewrite (inv_derived _ _ _ _ _ _ HI) by (rewrite Hm; done). reflexivity.
  - apply Hflight. reflexivity.
  - apply Hflight. reflexivity.
  - apply Hflight. reflexivity.
  - rewrite (inv_derived _ _ _ _ _ _ HI) by (rewrite Hm; done). reflexivity.
Qed.

(** X20. Once derived, the task list is fixed: at every moment of
    every run it has one task per slot, and the identifier, the prompt
    and the name of each task are those the derivation gave it; no
    worker and no snapshot changes them, and no task is added or
    removed. *)
Theorem run_tasks_fixed (uuid4 now : nat -> str)
    (claude_of : nat -> subprocess_run) (main_prompt : str) (agent_count : Z)
    (test_mode : bool) (schedule : list event) :
  let st := run uuid4 now claude_of main_prompt agent_count test_mode
                schedule in
  (fun t => (agent_id t, prompt t, name t)) <$> tasks (orch st) =
  match main st with
  | MStart => []
  | _ =>
      (fun k =>
         let map_item := agent_map !!! (k mod 5) in
         (uuid4 (1 + k), sub_prompt_of map_item main_prompt, agent map_item))
        <$> seq 0 (Z.to_nat agent_count)
  end.
Proof.
  intros st.
  pose proof (run_tasks_frozen uuid4 now claude_of main_prompt agent_count
                               test_mode schedule) as Hfrozen.
  fold st in Hfrozen.
  change (frozen <$> tasks (orch st) =
          match main st with
          | MStart => []
          | _ =>
              (fun k =>
                 let map_item := agent_map !!! (k mod 5) in
                 (uuid4 (1 + k), sub_prompt_of map_item main_prompt,
                  agent map_item))
                <$> seq 0 (Z.to_nat agent_count)
          end).
  rewrite Hfrozen.
  destruct (main st); try reflexivity;
    unfold T0; rewrite <- list_fmap_compose;
    apply list_fmap_ext; intros i slot _;
    destruct (role_lookup slot) as (r & _ & Hr & Hne);
    unfold compose, frozen, derived_task; cbv beta zeta;
    change (length agent_map) with 5 in *; rewrite Hr;
    unfold AgentTask_init; cbn [agent_id prompt name];
    (destruct (agent r); [contradiction | reflexivity]).
Qed.

(** X21. Identifiers are unique: at every moment of every run the
    session identifier and the identifiers of the tasks are pairwise
    distinct, [uuid4] never repeating a value. *)
Theorem run_ids_unique (uuid4 now : nat -> str)
    (claude_of : nat -> subprocess_run) (main_prompt : str) (agent_count : Z)
    (test_mode : bool) (schedule : list event) :
  (forall i j, uuid4 i = uuid4 j -> i = j) ->
  let st := run uuid4 now claude_of main_prompt agent_count test_mode
                schedule in
  NoDup (session_id (orch st) :: (agent_id <$> tasks (orch st))).
Proof.
  intros Hfresh st.
  pose proof (Inv_run uuid4 now claude_of main_prompt agent_count test_mode
                      schedule) as HI.
  pose proof (run_tasks_frozen uuid4 now claude_of main_prompt agent_count
                               test_mode schedule) as Hfrozen.
  fold st in HI, Hfrozen.
  rewrite (inv_session _ _ _ _ _ _ HI).
  assert (agent_id <$> tasks (orch st)
          = (fun x => x.1.1) <$> (frozen <$> tasks (orch st))) as ->
    by (rewrite <- list_fmap_compose; reflexivity).
  rewrite Hfrozen.
  assert (NoDup (uuid4 0 :: ((fun x => x.1.1)
                               <$> (frozen <$> T0 uuid4 main_prompt
                                                  agent_count)))) as Hall.
  { assert ((fun x => x.1.1) <$> (frozen <$> T0 uuid4 main_prompt agent_count)
            = uuid4 <$> (S <$> seq 0 (Z.to_nat agent_count))) as ->.
    { unfold T0. rewrite <- !list_fmap_compose.
      apply list_fmap_ext. intros i k _. reflexivity. }
    change (NoDup (uuid4 <$> (0 :: (S <$> seq 0 (Z.to_nat agent_count))))).
    apply NoDup_fmap_2; [intros i j; apply Hfresh |].
    rewrite fmap_S_seq. apply (NoDup_seq 0 (S (Z.to_nat agent_count))). }
  destruct (main st); try exact Hall.
  apply NoDup_singleton.
Qed.

Lemma sample_uuid4_fresh (i j : nat) : sample_uuid4 i = sample_uuid4 j -> i = j.
Proof.
  unfold sample_uuid4. intros Heq.
  apply app_inv_head in Heq. injection Heq as Heq. lia.
Qed.

Lemma run_ids_unique_witness :
  NoDup (session_id
           (orch (run sample_uuid4 sample_now sample_claude_of (py "x") 7 true
                      sample_schedule))
         :: (agent_id
               <$> tasks
                     (orch (run sample_uuid4 sample_now sample_claude_of
                                (py "x") 7 true sample_schedule)))).
Proof.
  apply (run_ids_unique sample_uuid4 sample_now sample_claude_of (py "x") 7
                        true sample_schedule).
  exact sample_uuid4_fresh.
Defined.

(** X22. A run writes to two paths only, in whatever state of the
    process and of the disk it starts: the debug log apart, every file
    other than the state file and the report file of the session holds
    at every moment what it held at the start.  The session id is the
    next UUID drawn, so the path of the report is fixed from the start,
    and when [run] has returned the report file holds the report. *)
Theorem run_files (uuid4 now : nat -> str)
    (claude_of : nat -> subprocess_run) (w0 : World) (main_prompt : str)
    (agent_count : Z) (test_mode : bool) (schedule : list event) (p : path) :
  let st := run_from uuid4 now claude_of w0 main_prompt agent_count test_mode
                     schedule in
  p <> DEBUG_LOG ->
  session_id (orch st) = uuid4 (uuid_draws w0) /\
  (p <> ORCHESTRATOR_STATE_FILE -> p <> report_file_of (orch st) ->
   files (world st) !! p = files w0 !! p) /\
  (main st = MDone ->
   files (world st) !! report_file_of (orch st)
     = Some (Text (report_of (orch st)))).
Proof.
  intros st _. subst st.
  rewrite run_from_over.
  set (st := run _ _ _ _ _ _ _).
  pose proof (Inv_run (shift uuid4 (uuid_draws w0))
                      (shift now (clock_reads w0)) claude_of main_prompt
                      agent_count test_mode schedule) as HI.
  fold st in HI.
  cbn [over_run over world orch main files].
  split_and!.
  - rewrite (inv_session _ _ _ _ _ _ HI). unfold shift.
    rewrite Nat.add_0_r. reflexivity.
  - intros Hstate Hreport. apply lookup_union_r.
    destruct (files (world st) !! p) as [f |] eqn:Hp; [| reflexivity].
    destruct (inv_files _ _ _ _ _ _ HI p ltac:(rewrite Hp; eauto))
      as [-> | [_ ->]]; contradiction.
  - intros Hd. apply lookup_union_Some_l.
    exact (inv_report _ _ _ _ _ _ HI Hd).
Qed.

Lemma run_files_witness :
  let other := [py "notes.txt"] in
  let w0 :=
    mkWorld {[ ORCHESTRATOR_STATE_FILE := Json JNull; other := Text (py "mine") ]}
            3 7 [JNull] in
  let st := run_from sample_uuid4 sample_now sample_real_claude_of w0 (py "x")
                     2 false sample_real_schedule in
  files (world st) !! other = Some (Text (py "mine")).
Proof.
  intros other w0 st.
  destruct (run_files sample_uuid4 sample_now sample_real_claude_of w0
              (py "x") 2 false sample_real_schedule other
              ltac:(discriminate))
    as (_ & Hother & _).
  etrans; [apply Hother | vm_compute; reflexivity].
  - discriminate.
  - intros Heq. apply (f_equal length) in Heq. discriminate.
Defined.

(** ** Snapshots and yielded futures *)

Lemma length_true_slots (flags : list bool) : forall base,
  length (true_slots base flags) = count_true flags.
Proof.
  induction flags as [| b flags IH]; intros base; [reflexivity |].
  cbn [true_slots count_true]. rewrite length_app, IH.
  destruct b; reflexivity.
Qed.

Lemma elem_of_true_slots (flags : list bool) : forall base j,
  flags !! j = Some true -> base + j ∈ true_slots base flags.
Proof.
  induction flags as [| b flags IH]; intros base j Hj; [discriminate |].
  cbn [true_slots]. apply elem_of_app. destruct j as [| j]; cbn in Hj.
  - injection Hj as ->. left. rewrite Nat.add_0_r. apply list_elem_of_singleton.
    reflexivity.
  - right. replace (base + S j) with (S base + j) by lia. apply IH. exact Hj.
Qed.

(** Distinct positions that are all flagged are at most as many as the
    flags that are set. *)
Lemma flagged_count (y : list nat) (flags : list bool) :
  NoDup y -> (forall j, j ∈ y -> flags !! j = Some true) ->
  length y <= count_true flags.
Proof.
  intros Hnodup Hflag. rewrite <- (length_true_slots flags 0).
  apply submseteq_length, NoDup_submseteq; [exact Hnodup |].
  intros j Hj. apply (elem_of_true_slots flags 0 j). exact (Hflag j Hj).
Qed.

Section YieldProofs.

Variable uuid4 : nat -> str.
Variable now : nat -> str.
Variable claude_of : nat -> subprocess_run.
Variable P : str.
Variable n : Z.
Variable tm : bool.

Local Abbreviation Inv' := (Inv uuid4 claude_of P n tm).
Local Abbreviation SnapInv' := (SnapInv uuid4 P n).
Local Abbreviation main_step' := (main_step uuid4 now claude_of).
Local Abbreviation step' := (step uuid4 now claude_of).
Local Abbreviation exec' := (exec uuid4 now claude_of).
Local Abbreviation run' := (run uuid4 now claude_of).

(** The task of a yielded future is terminal. *)
Lemma yielded_terminal st j t :
  Inv' st -> j ∈ yielded st -> tasks (orch st) !! j = Some t ->
  terminal (status t) = true.
Proof.
  intros HI Hj Ht.
  assert (spawned (main st) = true) as Hsp.
  { destruct (spawned (main st)) eqn:Hsp; [reflexivity |].
    destruct (inv_idle _ _ _ _ _ _ HI Hsp) as [_ Hy].
    rewrite Hy in Hj. inversion Hj. }
  destruct (inv_flight _ _ _ _ _ _ HI Hsp) as (_ & Hlt & Hlw & Hfl).
  destruct (inv_yielded _ _ _ _ _ _ HI) as [_ Hdone].
  pose proof (Hdone j Hj) as Hw.
  pose proof (lookup_lt_Some _ _ _ Ht) as Hlt'.
  destruct (lookup_lt_is_Some_2 (T0 uuid4 P n) j) as [t0 Ht0]; [lia |].
  destruct (Hfl j t0 t [] Ht0 Ht Hw) as (done & Hsplit & Hruns).
  rewrite app_nil_r in Hsplit. subst done.
  apply execute_writes_complete in Hruns as (env & _ & ->).
  apply executed_frozen.
Qed.

Lemma YieldInv_start : YieldInv (start uuid4 P n tm).
Proof. constructor; cbn; [intros i state Hs | intros ? ? ? Hm]; discriminate. Qed.

Lemma YieldInv_worker_step i st :
  YieldInv st -> YieldInv (worker_step now i st).
Proof.
  intros HY. destruct (worker_step_quiet now i st) as (Hm & Hy & Hf & Hw).
  constructor; rewrite ?Hm, ?Hy, ?Hw; apply HY.
Qed.

Lemma YieldInv_main_save st k timestamp entries pick :
  Inv' st -> SnapInv' st -> YieldInv st ->
  main st = MSaveState k timestamp entries ->
  YieldInv (main_step' pick st).
Proof.
  intros HI HS HY Hm.
  pose proof (yield_building _ HY k timestamp entries Hm) as Hbuild.
  pose proof (tasks_length uuid4 claude_of P n tm st HI
                           ltac:(rewrite Hm; discriminate)) as Hlen.
  unfold main_step. rewrite Hm.
  destruct (tasks (orch st) !! length entries) as [t |] eqn:Ht.
  - constructor; cbn [orch world main workers yielded].
    + apply HY.
    + intros k' timestamp' entries' [= <- <- <-] j Hj Hlt.
      rewrite length_app in Hlt. cbn in Hlt. rewrite fmap_app.
      destruct (decide (j < length entries)) as [Hin | Hout].
      * rewrite lookup_app_l by (rewrite length_fmap; exact Hin).
        apply Hbuild; assumption.
      * assert (j = length entries) as -> by lia.
        rewrite lookup_app_r by (rewrite length_fmap; lia).
        rewrite length_fmap, Nat.sub_diag.
        change (Some (entry_terminal (task_state t)) = Some true).
        rewrite entry_terminal_task_state. f_equal.
        exact (yielded_terminal st _ t HI Hj Ht).
  - apply lookup_ge_None in Ht.
    constructor; cbn [orch world main workers yielded].
    + unfold write_state, write_text. cbn [state_writes]. intros i state Hs.
      destruct (decide (i < length (state_writes (world st)))) as [Hin | Hout].
      * rewrite lookup_app_l in Hs by exact Hin.
        exact (yield_writes _ HY i state Hs).
      * pose proof (lookup_lt_Some _ _ _ Hs) as Hi.
        rewrite length_app in Hi. cbn in Hi.
        rewrite lookup_app_r in Hs by lia.
        replace (i - length (state_writes (world st))) with 0 in Hs by lia.
        injection Hs as <-.
        unfold terminal_count. rewrite snapshot_entries_state_record.
        pose proof (snap_count _ _ _ _ HS) as Hc. rewrite Hm in Hc.
        cbn in Hc.
        assert (i = length (yielded st)) as -> by lia.
        destruct (inv_yielded _ _ _ _ _ _ HI) as [Hnodup Hdone].
        apply flagged_count; [exact Hnodup |].
        intros j Hj. apply Hbuild; [exact Hj |].
        assert (spawned (main st) = true) as Hsp.
        { destruct (spawned (main st)) eqn:Hsp; [reflexivity |].
          destruct (inv_idle _ _ _ _ _ _ HI Hsp) as [_ Hy].
          rewrite Hy in Hj. inversion Hj. }
        destruct (inv_flight _ _ _ _ _ _ HI Hsp) as (_ & _ & Hlw & _).
        rewrite length_T0 in Hlw.
        apply Hdone, lookup_lt_Some in Hj. lia.
    + intros k' timestamp' entries' Hx. destruct k; discriminate.
Qed.

Lemma YieldInv_main_step pick st :
  Inv' st -> SnapInv' st -> YieldInv st -> YieldInv (main_step' pick st).
Proof.
  intros HI HS HY.
  destruct (main st) as [| k timestamp entries | | | | | e] eqn:Hm.
  - rewrite (main_step_start uuid4 now claude_of P n tm) by assumption.
    constructor; cbn [orch world main workers yielded state_writes].
    + apply HY.
    + intros k timestamp entries [= <- <- <-] j _ Hlt. cbn in Hlt. lia.
  - eapply YieldInv_main_save; eassumption.
  - unfold main_step. rewrite Hm.
    destruct (agent_count (orch st) <=? 0)%Z;
      (constructor; cbn [orch world main workers yielded];
       [apply HY | discriminate]).
  - unfold main_step. rewrite Hm.
    destruct (decide (length (yielded st) = length (tasks (orch st)))).
    + constructor; cbn [orch world main workers yielded];
        [apply HY | discriminate].
    + destruct (decide (workers st !! pick = Some [] /\ pick ∉ yielded st));
        [| exact HY].
      constructor; cbn [orch world main workers yielded read_clock
                        state_writes].
      * apply HY.
      * intros k timestamp entries [= <- <- <-] j _ Hlt. cbn in Hlt. lia.
  - unfold main_step. rewrite Hm. unfold synthesize, write_text.
    constructor; cbn [orch world main workers yielded state_writes];
      [apply HY | discriminate].
  - unfold main_step. rewrite Hm. exact HY.
  - unfold main_step. rewrite Hm. exact HY.
Qed.

Lemma YieldInv_exec schedule : forall st,
  Inv' st -> SnapInv' st -> YieldInv st -> YieldInv (exec' schedule st).
Proof.
  induction schedule as [| ev schedule IH]; intros st HI HS HY; [exact HY |].
  change (exec' (ev :: schedule) st) with (exec' schedule (step' st ev)).
  destruct ev as [pick | i]; cbn [step].
  - apply IH; [apply Inv_main_step
               | apply (SnapInv_main_step uuid4 now claude_of P n tm)
               | apply YieldInv_main_step]; assumption.
  - apply IH; [apply Inv_worker_step | apply SnapInv_worker_step
               | apply YieldInv_worker_step]; assumption.
Qed.

Lemma YieldInv_run schedule : YieldInv (run' P n tm schedule).
Proof.
  apply YieldInv_exec;
    [apply Inv_start | apply SnapInv_start | apply YieldInv_start].
Qed.

End YieldProofs.

(** X23. Snapshots keep up with completions: the snapshot written
    after the [i]-th future was yielded (position [i] in the sequence
    of snapshots, the initial one having position 0) records at least
    [i] tasks with a terminal status. *)
Theorem snapshot_keeps_up (uuid4 now : nat -> str)
    (claude_of : nat -> subprocess_run) (main_prompt : str) (agent_count : Z)
    (test_mode : bool) (schedule : list event) (i : nat) (state : json) :
  let st := run uuid4 now claude_of main_prompt agent_count test_mode
                schedule in
  state_writes (world st) !! i = Some state ->
  i <= terminal_count state.
Proof.
  intros st.
  exact (yield_writes _ (YieldInv_run uuid4 now claude_of main_prompt
                                      agent_count test_mode schedule)
                      i state).
Qed.

Lemma snapshot_keeps_up_witness :
  let st := run sample_uuid4 sample_now sample_claude_of (py "x") 2 true
                sample_schedule in
  exists state,
    state_writes (world st) !! 1 = Some state /\ 1 <= terminal_count state.
Proof.
  intros st.
  destruct (state_writes (world st) !! 1) as [state |] eqn:Hs;
    [| vm_compute in Hs; discriminate].
  exists state. split; [reflexivity |].
  apply (snapshot_keeps_up sample_uuid4 sample_now sample_claude_of (py "x") 2
                           true sample_schedule 1 state).
  exact Hs.
Defined.

(** ** Timestamps *)

Lemma clock_ok_mono now c c' t : clock_ok now c t -> c <= c' -> clock_ok now c' t.
Proof.
  unfold clock_ok.
  destruct (started_at t), (ended_at t); intros Hok Hle; try exact Hok.
  - destruct Hok as (k1 & k2 & H1 & H2 & H3 & H4). exists k1, k2.
    split_and!; try assumption; lia.
  - destruct Hok as (k1 & H1 & H2). exists k1. split; [lia | exact H2].
Qed.

(** Where the clock is read in [execute]: [started_at] is assigned
    while no timestamp is set, [ended_at] once [started_at] is. *)
Lemma clock_write_positions test_mode c t0 done op rest t :
  fresh t0 ->
  execute_writes test_mode c t0 = done ++ op :: rest ->
  runs_to t0 done t ->
  match op with
  | WStartedAt => started_at t = None /\ ended_at t = None
  | WEndedAt => started_at t <> None /\ ended_at t = None
  | _ => True
  end.
Proof.
  intros (Hs & Hr & Hst & Hen & Her) Hsplit Hruns.
  destruct t0 as [id p nm s r st en er]. cbn in Hs, Hr, Hst, Hen, Her. subst.
  unfold execute_writes in Hsplit.
  destruct test_mode;
    [| destruct c as [e | e | rc stdout stderr];
       [| | destruct (rc =? 0)%Z]];
    cbn in Hsplit;
    repeat (destruct done as [| ? done]; cbn in Hsplit;
            [injection Hsplit as <- <-; invert_runs; cbn;
             first [exact I | split; [discriminate | reflexivity]
                   | split; reflexivity] |];
            try discriminate; injection Hsplit as <- Hsplit);
    destruct done; discriminate.
Qed.

Section ClockProofs.

Variable uuid4 : nat -> str.
Variable now : nat -> str.
Variable claude_of : nat -> subprocess_run.
Variable P : str.
Variable n : Z.
Variable tm : bool.

Local Abbreviation Inv' := (Inv uuid4 claude_of P n tm).
Local Abbreviation main_step' := (main_step uuid4 now claude_of).
Local Abbreviation step' := (step uuid4 now claude_of).
Local Abbreviation exec' := (exec uuid4 now claude_of).
Local Abbreviation run' := (run uuid4 now claude_of).

Lemma main_step_tasks pick st :
  main st <> MStart ->
  tasks (orch (main_step' pick st)) = tasks (orch st) /\
  clock_reads (world st) <= clock_reads (world (main_step' pick st)).
Proof.
  intros Hns. unfold main_step.
  destruct (main st) as [| k timestamp entries | | | | | e];
    [contradiction | | | | | |].
  - destruct (tasks (orch st) !! length entries); cbn; auto.
  - destruct (agent_count (orch st) <=? 0)%Z; cbn; auto.
  - destruct (decide (length (yielded st) = length (tasks (orch st))));
      [cbn; auto |].
    destruct (decide (workers st !! pick = Some [] /\ pick ∉ yielded st));
      cbn; auto.
  - cbn. auto.
  - auto.
  - auto.
Qed.

Lemma clock_inv_main_step pick st :
  Inv' st -> clock_inv now st -> clock_inv now (main_step' pick st).
Proof.
  intros HI HC i t Ht.
  destruct (main st) as [| k timestamp entries | | | | | e] eqn:Hm.
  - rewrite (main_step_start uuid4 now claude_of P n tm) in Ht |- *
      by assumption.
    cbn in Ht. apply T0_fresh in Ht as (_ & _ & Hs & He & _).
    unfold clock_ok. rewrite Hs, He. exact I.
  - destruct (main_step_tasks pick st ltac:(rewrite Hm; discriminate))
      as [Htasks Hclock].
    rewrite Htasks in Ht. eapply clock_ok_mono; [exact (HC i t Ht) | exact Hclock].
  - destruct (main_step_tasks pick st ltac:(rewrite Hm; discriminate))
      as [Htasks Hclock].
    rewrite Htasks in Ht. eapply clock_ok_mono; [exact (HC i t Ht) | exact Hclock].
  - destruct (main_step_tasks pick st ltac:(rewrite Hm; discriminate))
      as [Htasks Hclock].
    rewrite Htasks in Ht. eapply clock_ok_mono; [exact (HC i t Ht) | exact Hclock].
  - destruct (main_step_tasks pick st ltac:(rewrite Hm; discriminate))
      as [Htasks Hclock].
    rewrite Htasks in Ht. eapply clock_ok_mono; [exact (HC i t Ht) | exact Hclock].
  - destruct (main_step_tasks pick st ltac:(rewrite Hm; discriminate))
      as [Htasks Hclock].
    rewrite Htasks in Ht. eapply clock_ok_mono; [exact (HC i t Ht) | exact Hclock].
  - destruct (main_step_tasks pick st ltac:(rewrite Hm; discriminate))
      as [Htasks Hclock].
    rewrite Htasks in Ht. eapply clock_ok_mono; [exact (HC i t Ht) | exact Hclock].
Qed.

Lemma clock_inv_worker_step i st :
  Inv' st -> clock_inv now st -> clock_inv now (worker_step now i st).
Proof.
  intros HI HC.
  destruct (spawned (main st)) eqn:Hsp;
    [| rewrite (worker_step_idle uuid4 now claude_of P n tm) by assumption;
       exact HC].
  unfold worker_step.
  destruct (workers st !! i) as [[| op rest] |] eqn:Hw; try exact HC.
  destruct (tasks (orch st) !! i) as [t |] eqn:Ht; try exact HC.
  destruct (inv_flight _ _ _ _ _ _ HI Hsp) as (_ & Hlt & _ & Hfl).
  destruct (lookup_lt_is_Some_2 (T0 uuid4 P n) i) as [t0 Ht0].
  { apply lookup_lt_Some in Ht. lia. }
  destruct (Hfl i t0 t _ Ht0 Ht Hw) as (done & Hsplit & Hruns).
  pose proof (clock_write_positions tm (claude_of i) t0 done op rest t
                (T0_fresh _ _ _ _ _ Ht0) Hsplit Hruns) as Hpos.
  pose proof (HC i t Ht) as Hold.
  intros j t' Hj.
  destruct (decide (i = j)) as [<- | Hne].
  - destruct op; cbn [reads_clock read_clock] in Hj |- *;
      cbn [orch world tasks with_tasks clock_reads] in Hj |- *;
      rewrite list_lookup_insert_eq in Hj by (eapply lookup_lt_Some; eauto);
      injection Hj as <-; unfold clock_ok in *; cbn in *.
    + exact Hold.
    + destruct Hpos as [_ He]. rewrite He.
      exists (clock_reads (world st)). split; [lia | reflexivity].
    + destruct Hpos as [Hs He]. rewrite He in Hold.
      destruct (started_at t) as [s |]; [| contradiction].
      destruct Hold as (k1 & Hk1 & ->).
      exists k1, (clock_reads (world st)). split_and!; try reflexivity; lia.
    + exact Hold.
    + exact Hold.
  - assert (tasks (orch st) !! j = Some t') as Hj'.
    { destruct (reads_clock op); unfold read_clock in Hj;
        cbn [orch world tasks with_tasks] in Hj;
        rewrite list_lookup_insert_ne in Hj by assumption; exact Hj. }
    eapply clock_ok_mono; [exact (HC j t' Hj') |].
    destruct (reads_clock op); unfold read_clock;
      cbn [world clock_reads]; lia.
Qed.

Lemma clock_inv_exec schedule : forall st,
  Inv' st -> clock_inv now st -> clock_inv now (exec' schedule st).
Proof.
  induction schedule as [| ev schedule IH]; intros st HI HC; [exact HC |].
  change (exec' (ev :: schedule) st) with (exec' schedule (step' st ev)).
  destruct ev as [pick | i]; cbn [step].
  - apply IH; [apply Inv_main_step | apply clock_inv_main_step]; assumption.
  - apply IH; [apply Inv_worker_step | apply clock_inv_worker_step];
      assumption.
Qed.

Lemma clock_inv_run schedule : clock_inv now (run' P n tm schedule).
Proof.
  apply clock_inv_exec; [apply Inv_start |].
  intros i t Ht. discriminate.
Qed.

End ClockProofs.

(** X24. A task ends after it started.  At every moment of every run,
    a task whose [ended_at] is set has [started_at] set as well, and
    the two are readings of the clock of which that of [ended_at] is
    the later; a task with [started_at] holds a reading already
    made. *)
Theorem run_ended_after_started (uuid4 now : nat -> str)
    (claude_of : nat -> subprocess_run) (main_prompt : str) (agent_count : Z)
    (test_mode : bool) (schedule : list event) (i : nat) (t : AgentTask)
    (e : str) :
  let st := run uuid4 now claude_of main_prompt agent_count test_mode
                schedule in
  tasks (orch st) !! i = Some t ->
  ended_at t = Some e ->
  exists k1 k2,
    k1 < k2 /\ k2 < clock_reads (world st) /\
    started_at t = Some (now k1) /\ e = now k2.
Proof.
  intros st Ht He.
  pose proof (clock_inv_run uuid4 now claude_of main_prompt agent_count
                            test_mode schedule i t Ht) as Hok.
  unfold clock_ok in Hok. rewrite He in Hok.
  destruct (started_at t) as [s |]; [| contradiction].
  destruct Hok as (k1 & k2 & H1 & H2 & -> & ->). eauto 10.
Qed.

Lemma run_ended_after_started_witness :
  let st := run sample_uuid4 sample_now sample_claude_of (py "x") 2 true
                sample_schedule in
  exists t e k1 k2,
    tasks (orch st) !! 0 = Some t /\ ended_at t = Some e /\
    k1 < k2 /\ k2 < clock_reads (world st) /\
    started_at t = Some (sample_now k1) /\ e = sample_now k2.
Proof.
  intros st.
  destruct (tasks (orch st) !! 0) as [t |] eqn:Ht;
    [| vm_compute in Ht; discriminate].
  destruct (ended_at t) as [e |] eqn:He.
  - destruct (run_ended_after_started sample_uuid4 sample_now sample_claude_of
                (py "x") 2 true sample_schedule 0 t e Ht He)
      as (k1 & k2 & Hw).
    exists t, e, k1, k2. split; [reflexivity |]. split; [exact He |].
    exact Hw.
  - exfalso. vm_compute in Ht. injection Ht as <-. discriminate.
Defined.
